(** * AMS backend ([backend/main.py]): placeholder endpoints behind a router

    A shallow embedding of the FastAPI application of [backend/main.py]:
    the five coroutine handlers, the application object they are
    registered on, the request dispatch of the web framework the source
    configures (routes, documentation URLs, CORS middleware), and the
    [__main__] block that picks the listening port.

    The handlers read one piece of ambient state, the UTC clock
    ([datetime.utcnow()]); the [__main__] block reads one, the process
    environment ([os.getenv]).  Both are passed explicitly as a [world]. *)

From Stdlib Require Import ZArith List String Ascii Bool Lia.
From Stdlib Require Import Floats.SpecFloat.
Import ListNotations.

#[local] Set Warnings "-register-all".

Local Open Scope string_scope.
Local Open Scope Z_scope.

(** ** Python values that the handlers build

    A handler returns a [Dict[str, Any]] that holds strings, integers,
    floats, lists and nested dicts.  A dict keeps its keys in insertion
    order, so it is an association list. *)

Inductive value : Type :=
| VStr (s : string)
| VInt (n : Z)
| VFloat (f : spec_float)
| VList (l : list value)
| VDict (d : list (string * value)).

(** The float literal [0.0]. *)
Definition float_zero : spec_float := S754_zero false.

Fixpoint assoc {A : Type} (k : string) (d : list (string * A)) : option A :=
  match d with
  | [] => None
  | (k', v) :: d' => if String.eqb k k' then Some v else assoc k d'
  end.

(** [v[k]] for a dict [v]; [None] stands for [KeyError] (and for a
    value that is not a dict). *)
Definition dict_get (k : string) (v : value) : option value :=
  match v with
  | VDict d => assoc k d
  | _ => None
  end.

Definition dict_keys (v : value) : list string :=
  match v with
  | VDict d => map fst d
  | _ => []
  end.

(** The dict without the key [k]. *)
Definition dict_remove (k : string) (v : value) : value :=
  match v with
  | VDict d => VDict (filter (fun kv => negb (String.eqb k (fst kv))) d)
  | _ => v
  end.

(** ** [datetime] and [isoformat] *)

Module Datetime.

Record datetime : Type := mk
  { year : Z; month : Z; day : Z;
    hour : Z; minute : Z; second : Z; microsecond : Z }.

Definition is_leap (y : Z) : bool :=
  ((y mod 4 =? 0) && negb (y mod 100 =? 0)) || (y mod 400 =? 0).

Definition days_in_month (y m : Z) : Z :=
  if m =? 2 then (if is_leap y then 29 else 28)
  else if (m =? 4) || (m =? 6) || (m =? 9) || (m =? 11) then 30
  else 31.

Definition in_range (lo x hi : Z) : bool := (lo <=? x) && (x <=? hi).

(** The values a [datetime] object can hold (MINYEAR = 1,
    MAXYEAR = 9999). *)
Definition valid (d : datetime) : bool :=
  in_range 1 (year d) 9999 && in_range 1 (month d) 12
  && in_range 1 (day d) (days_in_month (year d) (month d))
  && in_range 0 (hour d) 23 && in_range 0 (minute d) 59
  && in_range 0 (second d) 59 && in_range 0 (microsecond d) 999999.

(** *** Printing *)

Definition digit (n : Z) : ascii := ascii_of_nat (48 + Z.to_nat n).

(** [pad w n]: the [w] low decimal digits of [n], most significant
    first ([%0wd] for [0 <= n < 10^w]). *)
Fixpoint pad (w : nat) (n : Z) : list ascii :=
  match w with
  | O => []
  | S w' => digit ((n / 10 ^ Z.of_nat w') mod 10) :: pad w' n
  end.

(** [datetime.isoformat()] with the default separator and
    [timespec='auto']: [YYYY-MM-DDTHH:MM:SS], followed by [.ffffff]
    when the microsecond is not zero. *)
Definition isoformat_chars (d : datetime) : list ascii :=
  (pad 4 (year d) ++ "-"%char :: pad 2 (month d) ++ "-"%char :: pad 2 (day d)
   ++ "T"%char :: pad 2 (hour d) ++ ":"%char :: pad 2 (minute d)
   ++ ":"%char :: pad 2 (second d)
   ++ (if microsecond d =? 0 then []
       else "."%char :: pad 6 (microsecond d)))%list.

Definition isoformat (d : datetime) : string :=
  string_of_list_ascii (isoformat_chars d).

(** *** Parsing an ISO-8601 datetime

    The extended format [YYYY-MM-DDTHH:MM:SS], optionally followed by a
    fraction of three (milliseconds) or six (microseconds) digits, with
    every field checked against its range. *)

Definition digit_val (c : ascii) : option Z :=
  let n := Z.of_nat (nat_of_ascii c) in
  if in_range 48 n 57 then Some (n - 48) else None.

Fixpoint take_digits (w : nat) (acc : Z) (s : list ascii)
  : option (Z * list ascii) :=
  match w with
  | O => Some (acc, s)
  | S w' =>
      match s with
      | [] => None
      | c :: s' =>
          match digit_val c with
          | Some v => take_digits w' (10 * acc + v) s'
          | None => None
          end
      end
  end.

Definition expect (c : ascii) (s : list ascii) : option (list ascii) :=
  match s with
  | c' :: s' => if Ascii.eqb c c' then Some s' else None
  | [] => None
  end.

Definition parse_fraction (s : list ascii) : option Z :=
  match s with
  | [] => Some 0
  | c :: s' =>
      if Ascii.eqb c "."%char then
        if Nat.eqb (List.length s') 6 then
          match take_digits 6 0 s' with
          | Some (us, _) => Some us
          | None => None
          end
        else if Nat.eqb (List.length s') 3 then
          match take_digits 3 0 s' with
          | Some (ms, _) => Some (1000 * ms)
          | None => None
          end
        else None
      else None
  end.

Definition bind {A B : Type} (o : option A) (f : A -> option B) : option B :=
  match o with
  | Some a => f a
  | None => None
  end.

Notation "'let?' p ':=' o 'in' k" :=
  (bind o (fun p => k))
    (at level 10, p pattern, o at level 100, k at level 200).

Definition parse_chars (s : list ascii) : option datetime :=
  let? (y, s) := take_digits 4 0 s in
  let? s := expect "-"%char s in
  let? (mo, s) := take_digits 2 0 s in
  let? s := expect "-"%char s in
  let? (d, s) := take_digits 2 0 s in
  let? s := expect "T"%char s in
  let? (h, s) := take_digits 2 0 s in
  let? s := expect ":"%char s in
  let? (mi, s) := take_digits 2 0 s in
  let? s := expect ":"%char s in
  let? (sec, s) := take_digits 2 0 s in
  let? us := parse_fraction s in
  let r := mk y mo d h mi sec us in
  if valid r then Some r else None.

Definition fromisoformat (s : string) : option datetime :=
  parse_chars (list_ascii_of_string s).

End Datetime.

(** ** The ambient state the program reads *)

(** A [str] whose characters need not be ASCII, as the value of an
    environment variable: its code points. *)
Definition pystr : Type := list N.

Definition ustr_chars (l : list ascii) : pystr := map N_of_ascii l.

(** An ASCII literal as a [str]. *)
Definition ustr (s : string) : pystr := ustr_chars (list_ascii_of_string s).

Record world : Type := mkWorld
  { utcnow : Datetime.datetime;           (* datetime.utcnow() *)
    environ : list (string * pystr) }.    (* os.environ *)

(** ** The handlers of [backend/main.py] *)

Definition root (w : world) : value :=
  VDict
    [ ("message", VStr "Welcome to AMS - Agent Management System");
      ("version", VStr "1.0.0");
      ("description",
        VStr "B2B SaaS platform for enterprise AI agent fleet management");
      ("status", VStr "operational");
      ("timestamp", VStr (Datetime.isoformat (utcnow w)));
      ("endpoints",
        VDict [ ("docs", VStr "/api/docs");
                ("health", VStr "/health");
                ("api", VStr "/api/v1") ]) ].

Definition health_check (w : world) : value :=
  VDict
    [ ("status", VStr "healthy");
      ("timestamp", VStr (Datetime.isoformat (utcnow w)));
      ("service", VStr "ams-backend");
      ("version", VStr "1.0.0") ].

Definition api_status (w : world) : value :=
  VDict
    [ ("api_version", VStr "v1");
      ("status", VStr "operational");
      ("features",
        VDict [ ("agent_management", VStr "coming_soon");
                ("observability", VStr "coming_soon");
                ("governance", VStr "coming_soon");
                ("analytics", VStr "coming_soon") ]);
      ("timestamp", VStr (Datetime.isoformat (utcnow w))) ].

Definition list_agents (_ : world) : value :=
  VDict
    [ ("agents", VList []);
      ("total", VInt 0);
      ("message", VStr "Agent management coming soon - Task 2 in progress") ].

Definition get_metrics (_ : world) : value :=
  VDict
    [ ("metrics",
        VDict [ ("active_agents", VInt 0);
                ("total_tasks", VInt 0);
                ("success_rate", VFloat float_zero);
                ("cost_savings", VFloat float_zero) ]);
      ("message", VStr "Metrics dashboard coming soon - Task 8 in progress") ].

(** ** The web framework, as far as the source configures it

    [FastAPI(...)] registers the documentation routes, [add_middleware]
    wraps the application in the CORS middleware, and each [@app.get]
    appends a route.  A request goes through the middleware to the router,
    which hands it to the first route that matches.  Responses are
    modelled by their status code and body; response headers are not. *)

Module Http.

Record request : Type := mkRequest
  { method : string;
    path : string;
    headers : list (string * string) }.  (* names in lower case *)

Inductive page : Type := SwaggerUI | OAuth2Redirect | ReDoc.

Inductive body : Type :=
| Json (v : value)
| OpenAPISchema
| Html (p : page)
| PlainText (s : string)
| NoBody.

Record response : Type := mkResponse
  { status_code : Z; content : body }.

(** The function behind a route: a coroutine of [main.py], or one of
    the closures [FastAPI.setup] creates. *)
Inductive endpoint : Type :=
| Coroutine (name : string) (fn : world -> value)
| openapi
| swagger_ui_html
| swagger_ui_redirect
| redoc_html.

Record route : Type := mkRoute
  { route_path : string;
    route_methods : list string;
    route_endpoint : endpoint }.

Record cors_config : Type := mkCors
  { allow_origins : list string;
    allow_credentials : bool;
    allow_methods : list string;
    allow_headers : list string }.

Inductive middleware : Type :=
| CORSMiddleware (c : cors_config).

Record application : Type := mkApp
  { title : string;
    description : string;
    version : string;
    openapi_url : option string;
    docs_url : option string;
    redoc_url : option string;
    swagger_ui_oauth2_redirect_url : option string;
    routes : list route;
    user_middleware : list middleware }.

(** *** Building the application *)

(** [starlette.routing.Route] without [methods]: GET, and HEAD with it. *)
Definition Route (p : string) (e : endpoint) : route :=
  mkRoute p ["GET"; "HEAD"] e.

(** [fastapi.routing.APIRoute]: exactly the methods given. *)
Definition APIRoute (p : string) (ms : list string) (e : endpoint) : route :=
  mkRoute p ms e.

Definition opt_list {A : Type} (o : option A) (f : A -> list route)
  : list route :=
  match o with
  | Some a => f a
  | None => []
  end.

(** [FastAPI.setup]: the schema, then the two documentation pages. *)
Definition setup (openapi_u docs_u oauth2_u redoc_u : option string)
  : list route :=
  opt_list openapi_u (fun o =>
    ([Route o openapi]
     ++ opt_list docs_u (fun d =>
          Route d swagger_ui_html
          :: opt_list oauth2_u (fun r => [Route r swagger_ui_redirect]))
     ++ opt_list redoc_u (fun r => [Route r redoc_html]))%list).

(** [FastAPI(title=..., description=..., version=..., docs_url=...,
    redoc_url=...)]; the other URLs keep their defaults. *)
Definition FastAPI (t d v : string) (docs_u redoc_u : option string)
  : application :=
  let openapi_u := Some "/openapi.json" in
  let oauth2_u := Some "/docs/oauth2-redirect" in
  {| title := t; description := d; version := v;
     openapi_url := openapi_u; docs_url := docs_u; redoc_url := redoc_u;
     swagger_ui_oauth2_redirect_url := oauth2_u;
     routes := setup openapi_u docs_u oauth2_u redoc_u;
     user_middleware := [] |}.

Definition add_middleware (m : middleware) (a : application) : application :=
  {| title := title a; description := description a; version := version a;
     openapi_url := openapi_url a; docs_url := docs_url a;
     redoc_url := redoc_url a;
     swagger_ui_oauth2_redirect_url := swagger_ui_oauth2_redirect_url a;
     routes := routes a;
     user_middleware := m :: user_middleware a |}.

(** The decorator [@app.get(p)] applied to the coroutine [fn]. *)
Definition get (p name : string) (fn : world -> value) (a : application)
  : application :=
  {| title := title a; description := description a; version := version a;
     openapi_url := openapi_url a; docs_url := docs_url a;
     redoc_url := redoc_url a;
     swagger_ui_oauth2_redirect_url := swagger_ui_oauth2_redirect_url a;
     routes := routes a ++ [APIRoute p ["GET"] (Coroutine name fn)];
     user_middleware := user_middleware a |}.

End Http.

(** ** The application object of [backend/main.py] *)

Notation "a |> f" := (f a) (at level 65, left associativity, only parsing).

Definition app : Http.application :=
  Http.FastAPI
    "AMS - Agent Management System"
    "B2B SaaS platform for enterprise AI agent fleet management and observability"
    "1.0.0"
    (Some "/api/docs") (Some "/api/redoc")
  |> Http.add_middleware
       (Http.CORSMiddleware
          {| Http.allow_origins := ["*"];
             Http.allow_credentials := true;
             Http.allow_methods := ["*"];
             Http.allow_headers := ["*"] |})
  |> Http.get "/" "root" root
  |> Http.get "/health" "health_check" health_check
  |> Http.get "/api/v1/status" "api_status" api_status
  |> Http.get "/api/v1/agents" "list_agents" list_agents
  |> Http.get "/api/v1/metrics" "get_metrics" get_metrics.

(** ** Serving a request *)

Module Serve.
Import Http.

Definition mem (s : string) (l : list string) : bool :=
  existsb (String.eqb s) l.

Definition LF : string := String (ascii_of_nat 10) EmptyString.

(** A path without parameters compiles to the regular expression
    [^path$], tried with [re.match]: [$] matches at the end of the
    string and before a newline that ends it. *)
Definition path_regex_match (pattern p : string) : bool :=
  String.eqb p pattern || String.eqb p (pattern ++ LF).

Inductive Match : Type := NONE | PARTIAL | FULL.

(** [Route.matches] *)
Definition matches (r : route) (req : request) : Match :=
  if path_regex_match (route_path r) (path req) then
    if mem (method req) (route_methods r) then FULL else PARTIAL
  else NONE.

Definition is_full (m : Match) : bool :=
  match m with FULL => true | _ => false end.

Definition is_partial (m : Match) : bool :=
  match m with PARTIAL => true | _ => false end.

Definition is_none (m : Match) : bool :=
  match m with NONE => true | _ => false end.

(** The responses the framework produces on its own. *)
Definition detail (code : Z) (msg : string) : response :=
  mkResponse code (Json (VDict [("detail", VStr msg)])).

Definition not_found : response := detail 404 "Not Found".

Definition method_not_allowed : response := detail 405 "Method Not Allowed".

Definition RedirectResponse : response := mkResponse 307 NoBody.

(** Calling an endpoint: a coroutine's dict becomes a JSON response with
    the default status code. *)
Definition call (e : endpoint) (w : world) : response :=
  match e with
  | Coroutine _ fn => mkResponse 200 (Json (fn w))
  | openapi => mkResponse 200 OpenAPISchema
  | swagger_ui_html => mkResponse 200 (Html SwaggerUI)
  | swagger_ui_redirect => mkResponse 200 (Html OAuth2Redirect)
  | redoc_html => mkResponse 200 (Html ReDoc)
  end.

(** [Route.handle] *)
Definition handle (r : route) (req : request) (w : world) : response :=
  if mem (method req) (route_methods r) then call (route_endpoint r) w
  else method_not_allowed.

(** [str.rstrip("/")] and [str.endswith("/")] *)
Fixpoint lstrip_slash (l : list ascii) : list ascii :=
  match l with
  | c :: l' => if Ascii.eqb c "/"%char then lstrip_slash l' else l
  | [] => []
  end.

Definition rstrip_slash (s : string) : string :=
  string_of_list_ascii (rev (lstrip_slash (rev (list_ascii_of_string s)))).

Definition endswith_slash (s : string) : bool :=
  match rev (list_ascii_of_string s) with
  | c :: _ => Ascii.eqb c "/"%char
  | [] => false
  end.

Definition redirect_path (p : string) : string :=
  if endswith_slash p then rstrip_slash p else p ++ "/".

Definition with_path (p : string) (req : request) : request :=
  mkRequest (method req) p (headers req).

(** [Router.app]: the first full match handles the request, else the
    first partial match; else a redirect when the path with its trailing
    slash toggled matches a route; else the default, not found. *)
Definition router (rs : list route) (req : request) (w : world) : response :=
  match find (fun r => is_full (matches r req)) rs with
  | Some r => handle r req w
  | None =>
      match find (fun r => is_partial (matches r req)) rs with
      | Some r => handle r req w
      | None =>
          if negb (String.eqb (path req) "/")
             && existsb
                  (fun r =>
                     negb (is_none
                             (matches r (with_path (redirect_path (path req)) req))))
                  rs
          then RedirectResponse
          else not_found
      end
  end.

(** *** The CORS middleware *)

Definition ALL_METHODS : list string :=
  ["DELETE"; "GET"; "HEAD"; "OPTIONS"; "PATCH"; "POST"; "PUT"].

Definition SAFELISTED_HEADERS : list string :=
  ["Accept"; "Accept-Language"; "Content-Language"; "Content-Type"].

Definition header (name : string) (req : request) : option string :=
  assoc name (headers req).

Definition lower_char (c : ascii) : ascii :=
  let n := nat_of_ascii c in
  if (Nat.leb 65 n && Nat.leb n 90)%bool then ascii_of_nat (n + 32) else c.

Fixpoint lower (s : string) : string :=
  match s with
  | EmptyString => EmptyString
  | String c s' => String (lower_char c) (lower s')
  end.

Definition is_space (c : ascii) : bool :=
  let n := nat_of_ascii c in
  (Nat.leb 9 n && Nat.leb n 13) || (Nat.leb 28 n && Nat.leb n 32).

Fixpoint lstrip (l : list ascii) : list ascii :=
  match l with
  | c :: l' => if is_space c then lstrip l' else l
  | [] => []
  end.

Definition strip_chars (l : list ascii) : list ascii :=
  rev (lstrip (rev (lstrip l))).

Definition strip (s : string) : string :=
  string_of_list_ascii (strip_chars (list_ascii_of_string s)).

(** [s.split(",")] *)
Fixpoint split_comma (cur : list ascii) (l : list ascii) : list string :=
  match l with
  | [] => [string_of_list_ascii (rev cur)]
  | c :: l' =>
      if Ascii.eqb c ","%char
      then string_of_list_ascii (rev cur) :: split_comma [] l'
      else split_comma (c :: cur) l'
  end.

Definition join_comma (l : list string) : string :=
  String.concat ", " l.

(** [CORSMiddleware.preflight_response] *)
Definition preflight_response (c : cors_config) (req : request)
           (origin requested_method : string) : response :=
  let all_origins := mem "*" (allow_origins c) in
  let all_headers := mem "*" (allow_headers c) in
  let methods := if mem "*" (allow_methods c) then ALL_METHODS
                 else allow_methods c in
  let allowed_headers :=
    map lower (SAFELISTED_HEADERS ++ allow_headers c)%list in
  let origin_failure :=
    if all_origins || mem origin (allow_origins c) then [] else ["origin"] in
  let method_failure :=
    if mem requested_method methods then [] else ["method"] in
  let headers_failure :=
    match header "access-control-request-headers" req with
    | None => []
    | Some hs =>
        if all_headers then []
        else if forallb (fun h => mem (strip (lower h)) allowed_headers)
                  (split_comma [] (list_ascii_of_string hs))
             then [] else ["headers"]
    end in
  match (origin_failure ++ method_failure ++ headers_failure)%list with
  | [] => mkResponse 200 (PlainText "OK")
  | failures =>
      mkResponse 400 (PlainText ("Disallowed CORS " ++ join_comma failures))
  end.

(** A request that the middleware answers itself. *)
Definition is_preflight (req : request) : bool :=
  match header "origin" req, header "access-control-request-method" req with
  | Some _, Some _ => String.eqb (method req) "OPTIONS"
  | _, _ => false
  end.

(** [CORSMiddleware.__call__]: a preflight request is answered here;
    any other request goes on to the wrapped application, whose status
    and body come back unchanged. *)
Definition cors (c : cors_config) (inner : request -> world -> response)
           (req : request) (w : world) : response :=
  match header "origin" req with
  | None => inner req w
  | Some origin =>
      match header "access-control-request-method" req with
      | Some requested_method =>
          if String.eqb (method req) "OPTIONS"
          then preflight_response c req origin requested_method
          else inner req w
      | None => inner req w
      end
  end.

Definition wrap (m : middleware) (inner : request -> world -> response)
  : request -> world -> response :=
  match m with
  | CORSMiddleware c => cors c inner
  end.

(** The application as a whole: the user middleware, outermost first,
    around the router. *)
Definition serve (a : application) : request -> world -> response :=
  fold_right wrap (router (routes a)) (user_middleware a).

(** [GET p] with no headers. *)
Definition GET (p : string) : request := mkRequest "GET" p [].

End Serve.

(** ** The [__main__] block *)

Module Startup.

Inductive exn : Type := ValueError.

(** The call [uvicorn.run(target, host=..., port=..., reload=...)]. *)
Record uvicorn_run : Type := mkRun
  { target : string; host : string; port : Z; reload : bool }.

(** How the block ends: with an exception before anything listens, or in
    the call that starts the server. *)
Inductive outcome : Type :=
| Raise (e : exn)
| Run (r : uvicorn_run).

(** [os.getenv(key, default)]: the variable's string, or the default
    object (here an [int]) when the variable is unset. *)
Definition getenv (env : list (string * pystr)) (key : string) (default : Z)
  : pystr + Z :=
  match assoc key env with
  | Some s => inl s
  | None => inr default
  end.

(** *** [int(x)] for a [str] or an [int]

    CPython parses a [str] in two steps.  The string is first brought to
    ASCII ([_PyUnicode_TransformDecimalAndSpaceToASCII]): an ASCII string
    is taken as it is; in any other string a character below 127 is
    copied, a Unicode space becomes a blank, a Unicode decimal digit
    becomes its ASCII digit, and the first character that is neither ends
    the result with a question mark.  The result is then read in base 10
    ([PyLong_FromString]): ASCII whitespace on both sides, an optional
    sign, then digits, where a single underscore may stand between two
    digits; more than [max_str_digits] digits are refused.  Every failure
    is a [ValueError].

    The two character tables of the interpreter's Unicode database are a
    parameter of the model. *)

Record unicode_db : Type := mkUnicode
  { isspace : N -> bool;            (* Py_UNICODE_ISSPACE *)
    todecimal : N -> option N }.    (* Py_UNICODE_TODECIMAL, None for -1 *)

(** [PyUnicode_IS_ASCII] *)
Definition is_ascii (u : pystr) : bool := forallb (fun c => N.ltb c 128) u.

Fixpoint transform (db : unicode_db) (u : pystr) : pystr :=
  match u with
  | [] => []
  | ch :: u' =>
      if N.ltb ch 127 then ch :: transform db u'
      else if isspace db ch then 32%N :: transform db u'
      else
        match todecimal db ch with
        | Some d => (48 + d)%N :: transform db u'
        | None => [63%N]
        end
  end.

Definition to_ascii (db : unicode_db) (u : pystr) : pystr :=
  if is_ascii u then u else transform db u.

(** [Py_ISSPACE]: blank, [\t], [\n], [\v], [\f], [\r]. *)
Definition Py_ISSPACE (c : N) : bool :=
  (N.leb 9 c && N.leb c 13) || N.eqb c 32.

Fixpoint skip_space (l : pystr) : pystr :=
  match l with
  | c :: l' => if Py_ISSPACE c then skip_space l' else l
  | [] => []
  end.

Definition strip_space (l : pystr) : pystr :=
  rev (skip_space (rev (skip_space l))).

Definition digit_value (c : N) : option Z :=
  if N.leb 48 c && N.leb c 57 then Some (Z.of_N c - 48) else None.

Definition is_digit (c : N) : bool :=
  match digit_value c with
  | Some _ => true
  | None => false
  end.

(** The digits of the literal, with its underscores (code 95). *)
Fixpoint digits (acc : Z) (after_digit : bool) (l : pystr) : option Z :=
  match l with
  | [] => if after_digit then Some acc else None
  | c :: l' =>
      if N.eqb c 95 then
        if after_digit then digits acc false l' else None
      else
        match digit_value c with
        | Some v => digits (10 * acc + v) true l'
        | None => None
        end
  end.

Definition digit_count (l : pystr) : nat := List.length (filter is_digit l).

(** [sys.int_info.default_max_str_digits] *)
Definition max_str_digits : nat := 4300.

Definition magnitude (body : pystr) : option Z :=
  match digits 0 false body with
  | Some v =>
      if Nat.ltb max_str_digits (digit_count body) then None else Some v
  | None => None
  end.

(** The sign (codes 45 and 43) and what follows it. *)
Definition signed (c : N) (l' : pystr) : bool * pystr :=
  if N.eqb c 45 then (true, l')
  else if N.eqb c 43 then (false, l')
  else (false, c :: l').

Definition long_from_string (l : pystr) : option Z :=
  match strip_space l with
  | c :: l' =>
      let (negative, body) := signed c l' in
      option_map (fun v => if negative then - v else v) (magnitude body)
  | [] => None
  end.

Definition int_of_str (db : unicode_db) (u : pystr) : option Z :=
  long_from_string (to_ascii db u).

Definition int (db : unicode_db) (x : pystr + Z) : exn + Z :=
  match x with
  | inr n => inr n
  | inl s =>
      match int_of_str db s with
      | Some n => inr n
      | None => inl ValueError
      end
  end.

(** [port = int(os.getenv("PORT", 8000))], then [uvicorn.run(...)]. *)
Definition main (db : unicode_db) (w : world) : outcome :=
  match int db (getenv (environ w) "PORT" 8000) with
  | inl e => Raise e
  | inr p => Run (mkRun "main:app" "0.0.0.0" p true)
  end.

(** The port the server is started on, if it is started. *)
Definition listening_port (o : outcome) : option Z :=
  match o with
  | Run r => Some (port r)
  | Raise _ => None
  end.

End Startup.

(** * Properties *)

Import Http Serve Startup.

(** ** Vocabulary of the statements *)

(** The coroutines of [main.py] among the routes of an application, with
    the path each is registered on. *)
Definition coroutine_routes (a : application)
  : list (string * string * (world -> value)) :=
  flat_map
    (fun r =>
       match route_endpoint r with
       | Coroutine name fn => [(route_path r, name, fn)]
       | _ => []
       end)
    (routes a).

Definition registered_paths (a : application) : list string :=
  map route_path (routes a).

(** A payload with a [timestamp] field that parses as an ISO-8601
    datetime. *)
Definition has_iso_timestamp (v : value) : Prop :=
  exists s d, dict_get "timestamp" v = Some (VStr s)
              /\ Datetime.fromisoformat s = Some d.

(** A handler that returns a literal payload plus the current timestamp:
    the timestamp is the clock reading, and nothing else varies. *)
Definition stamped (fn : world -> value) : Prop :=
  (forall w, dict_get "timestamp" (fn w)
             = Some (VStr (Datetime.isoformat (utcnow w))))
  /\ (forall w w', dict_remove "timestamp" (fn w)
                   = dict_remove "timestamp" (fn w')).

(** A handler that returns the same literal payload whatever the world. *)
Definition constant (fn : world -> value) : Prop :=
  (forall w w', fn w = fn w')
  /\ (forall w, dict_get "timestamp" (fn w) = None).

Definition is_2xx (r : response) : Prop :=
  200 <= status_code r < 300.

(** The responses that come from the framework and not from a handler. *)
Definition framework_default (r : response) : Prop :=
  r = not_found \/ r = method_not_allowed \/ r = RedirectResponse
  \/ r = mkResponse 400 (PlainText "Disallowed CORS method").

(** The interface table of the specification: each path with the fields
    it lists for the response. *)
Definition interface_table : list (string * list string) :=
  [ ("/", ["message"; "version"; "status"; "timestamp"; "endpoints"]);
    ("/health", ["status"; "timestamp"; "service"; "version"]);
    ("/api/v1/status", ["api_version"; "status"; "features"; "timestamp"]);
    ("/api/v1/agents", ["agents"; "total"; "message"]);
    ("/api/v1/metrics", ["metrics"; "message"]) ].

(** The keys of a row's body against the row: all the listed fields, and
    besides them only [description] at [/]. *)
Definition row_ok (p : string) (fields keys : list string) : bool :=
  forallb (fun k => mem k keys) fields
  && forallb
       (fun k => mem k fields
                 || (String.eqb p "/" && String.eqb k "description"))
       keys.

(** The ASCII characters a base-10 integer literal may contain: digits,
    underscore, sign and whitespace. *)
Definition int_char (c : N) : bool :=
  is_digit c || N.eqb c 95 || N.eqb c 43 || N.eqb c 45 || Py_ISSPACE c.

(** A character that [int] accepts nowhere in a string: below 127 one
    that is no [int_char]; from 127 on one that is neither a Unicode space
    nor a Unicode decimal digit. *)
Definition foreign (db : unicode_db) (c : N) : bool :=
  if N.ltb c 127 then negb (int_char c)
  else negb (isspace db c)
       && match todecimal db c with Some _ => false | None => true end.

(** A character that [transform] does not stop at. *)
Definition decodable (db : unicode_db) (c : N) : bool :=
  N.ltb c 127 || isspace db c
  || match todecimal db c with Some _ => true | None => false end.

(** The information separators, whitespace for [str.isspace] but not
    for [int]. *)
Definition separator (c : N) : bool := N.leb 28 c && N.leb c 31.

(** A whitespace character of [str.isspace]: ASCII whitespace, a
    separator, or a Unicode space outside ASCII. *)
Definition blank (db : unicode_db) (c : N) : bool :=
  Py_ISSPACE c || separator c || (N.leb 128 c && isspace db c).

(** An excerpt of the Unicode database: the spaces outside ASCII, and the
    Arabic-Indic and fullwidth digits. *)
Definition unicode_excerpt : unicode_db :=
  {| isspace := fun c =>
       existsb (N.eqb c)
         [133; 160; 5760; 8232; 8233; 8239; 8287; 12288]%N
       || (N.leb 8192 c && N.leb c 8202);
     todecimal := fun c =>
       if N.leb 1632 c && N.leb c 1641 then Some (c - 1632)%N
       else if N.leb 65296 c && N.leb c 65305 then Some (c - 65296)%N
       else None |}.

(** The paths [main.py] registers a handler on. *)
Definition handler_paths : list string :=
  map (fun r => fst (fst r)) (coroutine_routes app).

(** A string of ASCII whitespace only. *)
Definition all_space (l : pystr) : bool := forallb Py_ISSPACE l.

(** Sample worlds and requests. *)
Definition leap_night : world :=
  mkWorld (Datetime.mk 2024 2 29 23 59 7 1500) [("HOME", ustr "/root")].

Definition new_year : world :=
  mkWorld (Datetime.mk 2025 1 1 0 0 0 0) [("PORT", ustr "8080")].

Definition bad_port : world :=
  mkWorld (Datetime.mk 2025 1 1 0 0 0 0) [("PORT", ustr "eighty")].

(** The same clock as [new_year], with [PORT] written in Arabic-Indic
    digits after a no-break space. *)
Definition arabic_port : world :=
  mkWorld (Datetime.mk 2025 1 1 0 0 0 0)
    [("PORT", [160; 1640; 1632; 1640; 1632]%N)].

Definition preflight : request :=
  mkRequest "OPTIONS" "/nope"
    [("origin", "http://localhost:3000");
     ("access-control-request-method", "GET")].

(** ** Printing a datetime, then parsing it, gives the datetime back *)

Module DatetimeFacts.
Import Datetime.

Lemma digit_val_digit (n : Z) :
  0 <= n <= 9 -> digit_val (digit n) = Some n.
Proof.
  intros H. rewrite <- (Z2Nat.id n) by lia.
  assert (Hk : (Z.to_nat n < 10)%nat) by lia.
  generalize dependent (Z.to_nat n). intros k Hk.
  do 10 (destruct k as [| k]; [reflexivity | ]). lia.
Qed.

Lemma low_digits_step (n : Z) (w : nat) :
  0 <= n ->
  n mod 10 ^ Z.of_nat (S w)
  = 10 ^ Z.of_nat w * ((n / 10 ^ Z.of_nat w) mod 10) + n mod 10 ^ Z.of_nat w.
Proof.
  intros Hn.
  assert (Hp : 0 < 10 ^ Z.of_nat w) by (apply Z.pow_pos_nonneg; lia).
  rewrite Nat2Z.inj_succ, Z.pow_succ_r by lia.
  rewrite (Z.mul_comm 10), Z.rem_mul_r by lia.
  lia.
Qed.

Lemma take_digits_pad (w : nat) :
  forall (n acc : Z) (rest : list ascii),
    0 <= n ->
    take_digits w acc (pad w n ++ rest)
    = Some (acc * 10 ^ Z.of_nat w + n mod 10 ^ Z.of_nat w, rest).
Proof.
  induction w as [| w IH]; intros n acc rest Hn.
  - cbn [take_digits pad List.app]. rewrite Z.mod_1_r. do 2 f_equal. cbn. lia.
  - cbn [take_digits pad List.app].
    rewrite digit_val_digit
      by (pose proof (Z.mod_pos_bound (n / 10 ^ Z.of_nat w) 10); lia).
    rewrite IH by assumption.
    rewrite (low_digits_step n w Hn).
    rewrite Nat2Z.inj_succ, Z.pow_succ_r by lia.
    do 2 f_equal. lia.
Qed.

Lemma take_digits_pad0 (w : nat) (n : Z) (rest : list ascii) :
  0 <= n < 10 ^ Z.of_nat w ->
  take_digits w 0 (pad w n ++ rest) = Some (n, rest).
Proof.
  intros H. rewrite take_digits_pad by lia.
  rewrite Z.mod_small by lia. reflexivity.
Qed.

Lemma length_pad (w : nat) (n : Z) : List.length (pad w n) = w.
Proof. induction w; cbn [pad List.length]; congruence. Qed.

Lemma parse_fraction_pad (us : Z) :
  0 <= us <= 999999 ->
  parse_fraction (if us =? 0 then [] else "."%char :: pad 6 us) = Some us.
Proof.
  intros H. destruct (Z.eqb_spec us 0) as [-> | Hne]; [reflexivity | ].
  cbn [parse_fraction]. rewrite Ascii.eqb_refl, length_pad.
  cbn [Nat.eqb].
  rewrite <- (app_nil_r (pad 6 us)), take_digits_pad0; [reflexivity | ].
  change (10 ^ Z.of_nat 6) with 1000000. lia.
Qed.

Lemma valid_ranges (d : datetime) :
  valid d = true ->
  (1 <= year d <= 9999) /\ (1 <= month d <= 12) /\ (1 <= day d <= 31)
  /\ (0 <= hour d <= 23) /\ (0 <= minute d <= 59) /\ (0 <= second d <= 59)
  /\ (0 <= microsecond d <= 999999).
Proof.
  unfold valid, in_range. intros H.
  repeat (apply andb_prop in H; destruct H as [H ?]).
  assert (days_in_month (year d) (month d) <= 31).
  { unfold days_in_month.
    repeat match goal with |- context [if ?b then _ else _] => destruct b end;
      lia. }
  lia.
Qed.

Theorem fromisoformat_isoformat (d : datetime) :
  valid d = true -> fromisoformat (isoformat d) = Some d.
Proof.
  intros Hv. pose proof (valid_ranges d Hv) as R.
  unfold fromisoformat, isoformat.
  rewrite list_ascii_of_string_of_list_ascii.
  unfold isoformat_chars, parse_chars.
  repeat first
    [ rewrite <- app_comm_cons
    | rewrite take_digits_pad0
        by (first [ change (10 ^ Z.of_nat 4) with 10000
                  | change (10 ^ Z.of_nat 2) with 100 ]; lia)
    | progress cbn [bind expect]
    | rewrite Ascii.eqb_refl ].
  rewrite parse_fraction_pad by lia. cbn [bind].
  destruct d; cbn in Hv |- *. rewrite Hv. reflexivity.
Qed.

End DatetimeFacts.

(** ** The router on the five registered paths *)

Lemma serve_app : serve app = cors
    {| allow_origins := ["*"]; allow_credentials := true;
       allow_methods := ["*"]; allow_headers := ["*"] |}
    (router (routes app)).
Proof. reflexivity. Qed.

(** A GET request is never a preflight: it reaches the router. *)
Lemma serve_GET (p : string) (hs : list (string * string)) (w : world) :
  serve app (mkRequest "GET" p hs) w
  = router (routes app) (mkRequest "GET" p hs) w.
Proof.
  rewrite serve_app. unfold cors, header. cbn [headers method].
  destruct (assoc "origin" hs); [ | reflexivity].
  destruct (assoc "access-control-request-method" hs); reflexivity.
Qed.

Lemma GET_root hs w :
  serve app (mkRequest "GET" "/" hs) w = mkResponse 200 (Json (root w)).
Proof. rewrite serve_GET. reflexivity. Qed.

Lemma GET_health hs w :
  serve app (mkRequest "GET" "/health" hs) w
  = mkResponse 200 (Json (health_check w)).
Proof. rewrite serve_GET. reflexivity. Qed.

Lemma GET_status hs w :
  serve app (mkRequest "GET" "/api/v1/status" hs) w
  = mkResponse 200 (Json (api_status w)).
Proof. rewrite serve_GET. reflexivity. Qed.

Lemma GET_agents hs w :
  serve app (mkRequest "GET" "/api/v1/agents" hs) w
  = mkResponse 200 (Json (list_agents w)).
Proof. rewrite serve_GET. reflexivity. Qed.

Lemma GET_metrics hs w :
  serve app (mkRequest "GET" "/api/v1/metrics" hs) w
  = mkResponse 200 (Json (get_metrics w)).
Proof. rewrite serve_GET. reflexivity. Qed.

(** ** Timestamps *)

Lemma clock_timestamp (fn : world -> value) (w : world) :
  Datetime.valid (utcnow w) = true ->
  dict_get "timestamp" (fn w) = Some (VStr (Datetime.isoformat (utcnow w))) ->
  exists s, dict_get "timestamp" (fn w) = Some (VStr s)
            /\ Datetime.fromisoformat s = Some (utcnow w).
Proof.
  intros Hv Hts. exists (Datetime.isoformat (utcnow w)). split.
  - exact Hts.
  - apply DatetimeFacts.fromisoformat_isoformat, Hv.
Qed.

(** C1, as stated, fails: not every handler's payload carries a
    [timestamp] field that parses as an ISO-8601 datetime.  The payload of
    [list_agents] has no such key, even under a valid clock. *)
Lemma timestamp_in_every_payload_fails :
  ~ (forall path name fn w,
        In (path, name, fn) (coroutine_routes app) ->
        Datetime.valid (utcnow w) = true ->
        has_iso_timestamp (fn w)).
Proof.
  intros H.
  destruct (H "/api/v1/agents" "list_agents" list_agents leap_night)
    as (s & d & Hget & _).
  - cbn. tauto.
  - reflexivity.
  - discriminate Hget.
Qed.

(** C1, amended: under a valid clock the payloads of [root],
    [health_check] and [api_status] contain a [timestamp] field, a string
    that parses as an ISO-8601 datetime, namely back to the clock reading;
    the payloads of [list_agents] and [get_metrics] contain no [timestamp]
    field. *)
Theorem timestamp_of_clock_handlers (w : world) :
  Datetime.valid (utcnow w) = true ->
  Forall
    (fun fn : world -> value =>
       exists s, dict_get "timestamp" (fn w) = Some (VStr s)
                 /\ Datetime.fromisoformat s = Some (utcnow w))
    [root; health_check; api_status]
  /\ dict_get "timestamp" (list_agents w) = None
  /\ dict_get "timestamp" (get_metrics w) = None.
Proof.
  intros Hv. split; [ | split; reflexivity].
  repeat constructor; apply clock_timestamp; try assumption; reflexivity.
Qed.

Lemma timestamp_of_clock_handlers_witness :
  Forall
    (fun fn : world -> value =>
       exists s, dict_get "timestamp" (fn leap_night) = Some (VStr s)
                 /\ Datetime.fromisoformat s = Some (utcnow leap_night))
    [root; health_check; api_status]
  /\ dict_get "timestamp" (list_agents leap_night) = None
  /\ dict_get "timestamp" (get_metrics leap_night) = None.
Proof. apply (timestamp_of_clock_handlers leap_night). reflexivity. Defined.

(** ** The routes *)

(** C2, as stated, fails: the router does not define six paths, whether
    one counts every route of the application or only those of the
    handlers of [main.py]. *)
Lemma six_paths_fails :
  ~ (List.length (routes app) = 6%nat
     \/ List.length (coroutine_routes app) = 6%nat).
Proof. cbn. intros [H | H]; discriminate H. Qed.

(** C2, amended: [main.py] registers exactly five fixed paths, each on
    its own handler that returns a literal structured payload; the
    handlers of [/], [/health] and [/api/v1/status] add the current
    timestamp to it, those of [/api/v1/agents] and [/api/v1/metrics]
    return the literal alone. *)
Theorem five_paths_each_with_its_handler :
  map (fun r => (fst (fst r), snd (fst r))) (coroutine_routes app)
  = [ ("/", "root"); ("/health", "health_check");
      ("/api/v1/status", "api_status"); ("/api/v1/agents", "list_agents");
      ("/api/v1/metrics", "get_metrics") ]
  /\ map snd (coroutine_routes app)
     = [root; health_check; api_status; list_agents; get_metrics]
  /\ NoDup (map (fun r => fst (fst r)) (coroutine_routes app))
  /\ NoDup (map (fun r => snd (fst r)) (coroutine_routes app))
  /\ Forall stamped [root; health_check; api_status]
  /\ Forall constant [list_agents; get_metrics].
Proof.
  split; [reflexivity | ]. split; [reflexivity | ].
  split; [ | split; [ | split ]].
  - cbn. repeat constructor; cbn; intuition discriminate.
  - cbn. repeat constructor; cbn; intuition discriminate.
  - repeat constructor; intros; reflexivity.
  - repeat constructor; intros; reflexivity.
Qed.

(** ** The placeholder payloads *)

(** C3: every GET of [/api/v1/agents] is answered by [list_agents], whose
    [agents] field is the empty list and whose [total] field is 0. *)
Theorem agents_empty_total_zero (hs : list (string * string)) (w : world) :
  serve app (mkRequest "GET" "/api/v1/agents" hs) w
  = mkResponse 200 (Json (list_agents w))
  /\ dict_get "agents" (list_agents w) = Some (VList [])
  /\ dict_get "total" (list_agents w) = Some (VInt 0).
Proof. split; [apply GET_agents | split; reflexivity]. Qed.

(** C4: every GET of [/api/v1/metrics] is answered by [get_metrics],
    whose [metrics] object has [active_agents] and [total_tasks] equal to
    the integer 0 and [success_rate] and [cost_savings] equal to the float
    0.0. *)
Theorem metrics_all_zero (hs : list (string * string)) (w : world) :
  serve app (mkRequest "GET" "/api/v1/metrics" hs) w
  = mkResponse 200 (Json (get_metrics w))
  /\ exists m,
      dict_get "metrics" (get_metrics w) = Some m
      /\ dict_get "active_agents" m = Some (VInt 0)
      /\ dict_get "total_tasks" m = Some (VInt 0)
      /\ dict_get "success_rate" m = Some (VFloat float_zero)
      /\ dict_get "cost_savings" m = Some (VFloat float_zero).
Proof.
  split; [apply GET_metrics | ].
  eexists. split; [reflexivity | ]. repeat split.
Qed.

(** ** Status and fields of the five responses *)

Lemma mem_In (k : string) (l : list string) : mem k l = true <-> In k l.
Proof.
  unfold mem. rewrite existsb_exists. split.
  - intros (x & Hx & He). apply String.eqb_eq in He. now subst.
  - intros H. exists k. split; [assumption | apply String.eqb_refl].
Qed.

Lemma forallb_mem_incl (l l' : list string) :
  forallb (fun k => mem k l') l = true -> incl l l'.
Proof.
  rewrite forallb_forall. intros H k Hk. apply mem_In, H, Hk.
Qed.

Lemma row_ok_spec (p : string) (fields keys : list string) :
  row_ok p fields keys = true ->
  incl fields keys
  /\ (forall k, In k keys -> In k fields \/ (p = "/" /\ k = "description")).
Proof.
  unfold row_ok. intros H. apply andb_prop in H. destruct H as [H1 H2].
  split; [apply forallb_mem_incl, H1 | ].
  intros k Hk. rewrite forallb_forall in H2. specialize (H2 k Hk).
  apply orb_prop in H2. destruct H2 as [H2 | H2].
  - left. apply mem_In, H2.
  - right. apply andb_prop in H2. destruct H2 as [Hp Hd].
    apply String.eqb_eq in Hp, Hd. auto.
Qed.

Lemma table_responses (p : string) (fields : list string)
      (hs : list (string * string)) (w : world) :
  In (p, fields) interface_table ->
  exists d,
    serve app (mkRequest "GET" p hs) w = mkResponse 200 (Json (VDict d))
    /\ row_ok p fields (map fst d) = true.
Proof.
  intros Hin. cbn [In interface_table] in Hin.
  destruct Hin as [Hin | [Hin | [Hin | [Hin | [Hin | []]]]]];
    injection Hin as <- <-; eexists.
  - split; [exact (GET_root hs w) | reflexivity].
  - split; [exact (GET_health hs w) | reflexivity].
  - split; [exact (GET_status hs w) | reflexivity].
  - split; [exact (GET_agents hs w) | reflexivity].
  - split; [exact (GET_metrics hs w) | reflexivity].
Qed.

(** C5, as stated, fails: the body of [GET /] does not hold exactly the
    fields the interface table lists for it; it also has a [description]
    field. *)
Lemma exact_table_fields_fails :
  ~ (forall p fields hs w,
        In (p, fields) interface_table ->
        exists d,
          serve app (mkRequest "GET" p hs) w = mkResponse 200 (Json d)
          /\ (forall k, In k (dict_keys d) <-> In k fields)).
Proof.
  intros H.
  destruct (H "/" ["message"; "version"; "status"; "timestamp"; "endpoints"]
              [] leap_night) as (d & Hd & Hk).
  - cbn. tauto.
  - rewrite GET_root in Hd. injection Hd as <-.
    destruct (Hk "description") as [Hk1 _].
    assert (Hin : In "description" (dict_keys (root leap_night))).
    { apply mem_In. reflexivity. }
    apply Hk1, mem_In in Hin. discriminate Hin.
Qed.

(** C5, amended: for each of the five routes of the interface table, a
    GET returns status 200 and a JSON body that contains every field the
    table lists for it, and no other field, except that the body of
    [GET /] also has a [description] field.  So [GET /health] has
    exactly [status], [timestamp], [service] and [version], and [GET /]
    has [message], [version], [status], [timestamp] and [endpoints]. *)
Theorem table_fields (p : string) (fields : list string)
        (hs : list (string * string)) (w : world) :
  In (p, fields) interface_table ->
  exists d,
    serve app (mkRequest "GET" p hs) w = mkResponse 200 (Json (VDict d))
    /\ (forall k, In k fields -> In k (map fst d))
    /\ (forall k, In k (map fst d) ->
                  In k fields \/ (p = "/" /\ k = "description")).
Proof.
  intros Hin. destruct (table_responses p fields hs w Hin) as (d & Hs & Hr).
  exists d. split; [exact Hs | ]. apply row_ok_spec, Hr.
Qed.

Lemma table_fields_witness :
  exists d,
    serve app (GET "/health") new_year = mkResponse 200 (Json (VDict d))
    /\ (forall k, In k ["status"; "timestamp"; "service"; "version"] ->
                  In k (map fst d))
    /\ (forall k, In k (map fst d) ->
                  In k ["status"; "timestamp"; "service"; "version"]
                  \/ ("/health" = "/" /\ k = "description")).
Proof.
  apply (table_fields "/health" ["status"; "timestamp"; "service"; "version"]
           [] new_year).
  cbn. tauto.
Defined.

(** ** Facts about [int] *)

Lemma pad_char (x : Z) :
  0 <= x <= 9 ->
  digit_value (N_of_ascii (Datetime.digit x)) = Some x
  /\ Py_ISSPACE (N_of_ascii (Datetime.digit x)) = false
  /\ N.eqb (N_of_ascii (Datetime.digit x)) 95 = false
  /\ N.eqb (N_of_ascii (Datetime.digit x)) 45 = false
  /\ N.eqb (N_of_ascii (Datetime.digit x)) 43 = false
  /\ N.ltb (N_of_ascii (Datetime.digit x)) 128 = true.
Proof.
  intros H. rewrite <- (Z2Nat.id x) by lia.
  assert (Hk : (Z.to_nat x < 10)%nat) by lia.
  generalize dependent (Z.to_nat x). intros k Hk.
  do 10 (destruct k as [| k]; [repeat split | ]). lia.
Qed.

Lemma decimal_digit_bounds (n : Z) (k : nat) :
  0 <= (n / 10 ^ Z.of_nat k) mod 10 <= 9.
Proof. pose proof (Z.mod_pos_bound (n / 10 ^ Z.of_nat k) 10). lia. Qed.

Lemma ustr_chars_pad_S (k : nat) (n : Z) :
  ustr_chars (Datetime.pad (S k) n)
  = N_of_ascii (Datetime.digit ((n / 10 ^ Z.of_nat k) mod 10))
    :: ustr_chars (Datetime.pad k n).
Proof. reflexivity. Qed.

Lemma pad_no_space (k : nat) (n : Z) :
  Forall (fun c => Py_ISSPACE c = false) (ustr_chars (Datetime.pad k n)).
Proof.
  induction k as [| k IH]; [constructor | ].
  rewrite ustr_chars_pad_S. constructor; [ | exact IH].
  apply pad_char, decimal_digit_bounds.
Qed.

Lemma pad_is_ascii (k : nat) (n : Z) :
  is_ascii (ustr_chars (Datetime.pad k n)) = true.
Proof.
  induction k as [| k IH]; [reflexivity | ].
  rewrite ustr_chars_pad_S. unfold is_ascii in *. cbn [forallb].
  rewrite IH. destruct (pad_char _ (decimal_digit_bounds n k)) as (_ & _ & _ & _ & _ & ->).
  reflexivity.
Qed.

Lemma digit_count_app (l l' : pystr) :
  digit_count (l ++ l')%list = (digit_count l + digit_count l')%nat.
Proof. unfold digit_count. rewrite filter_app, length_app. reflexivity. Qed.

Lemma digit_count_pad (k : nat) (n : Z) :
  digit_count (ustr_chars (Datetime.pad k n)) = k.
Proof.
  induction k as [| k IH]; [reflexivity | ].
  rewrite ustr_chars_pad_S. unfold digit_count in *. cbn [filter].
  unfold is_digit at 1.
  destruct (pad_char _ (decimal_digit_bounds n k)) as (-> & _).
  cbn [List.length]. rewrite IH. reflexivity.
Qed.

Lemma skip_space_id (l : pystr) :
  Forall (fun c => Py_ISSPACE c = false) l -> skip_space l = l.
Proof.
  intros H. destruct H as [| c l Hc _]; cbn [skip_space]; [ | rewrite Hc];
    reflexivity.
Qed.

Lemma strip_space_id (l : pystr) :
  Forall (fun c => Py_ISSPACE c = false) l -> strip_space l = l.
Proof.
  intros H. unfold strip_space. rewrite (skip_space_id l H).
  rewrite skip_space_id by (apply Forall_rev, H). apply rev_involutive.
Qed.

Lemma digits_pad_app (k : nat) :
  forall (n acc : Z) (b : bool) (rest : pystr),
    0 <= n ->
    digits acc b (ustr_chars (Datetime.pad k n) ++ rest)%list
    = digits (acc * 10 ^ Z.of_nat k + n mod 10 ^ Z.of_nat k)
             (b || negb (Nat.eqb k 0)) rest.
Proof.
  induction k as [| k IH]; intros n acc b rest Hn.
  - cbn [Datetime.pad ustr_chars map List.app Nat.eqb negb].
    rewrite orb_false_r, Z.mod_1_r. f_equal. cbn. lia.
  - rewrite ustr_chars_pad_S. cbn [List.app digits Nat.eqb negb].
    destruct (pad_char _ (decimal_digit_bounds n k)) as (Hv & _ & Hu & _).
    rewrite Hu, Hv, IH by assumption. rewrite orb_true_r. cbn [orb].
    f_equal.
    rewrite (DatetimeFacts.low_digits_step n k Hn).
    rewrite Nat2Z.inj_succ, Z.pow_succ_r by lia. lia.
Qed.

Lemma digits_pad (k : nat) (n acc : Z) :
  k <> O -> 0 <= n < 10 ^ Z.of_nat k ->
  digits acc false (ustr_chars (Datetime.pad k n))
  = Some (acc * 10 ^ Z.of_nat k + n).
Proof.
  intros Hk Hn.
  rewrite <- (app_nil_r (ustr_chars (Datetime.pad k n))).
  rewrite digits_pad_app by lia. rewrite Z.mod_small by lia.
  destruct k as [| k]; [contradiction Hk; reflexivity | reflexivity].
Qed.

Lemma within_limit (k : nat) :
  (k <= max_str_digits)%nat -> Nat.ltb max_str_digits k = false.
Proof. intros H. apply Nat.ltb_ge, H. Qed.

Lemma magnitude_pad (k : nat) (n : Z) :
  k <> O -> (k <= max_str_digits)%nat -> 0 <= n < 10 ^ Z.of_nat k ->
  magnitude (ustr_chars (Datetime.pad k n)) = Some n.
Proof.
  intros Hk Hm Hn. unfold magnitude.
  rewrite (digits_pad k n 0 Hk Hn), digit_count_pad, (within_limit k Hm).
  reflexivity.
Qed.

(** A literal of [k] digits, without sign, reads as its value. *)
Lemma long_from_string_pad (k : nat) (n : Z) :
  k <> O -> (k <= max_str_digits)%nat -> 0 <= n < 10 ^ Z.of_nat k ->
  long_from_string (ustr_chars (Datetime.pad k n)) = Some n.
Proof.
  intros Hk Hm Hn. unfold long_from_string.
  rewrite (strip_space_id _ (pad_no_space k n)).
  pose proof (magnitude_pad k n Hk Hm Hn) as Hv.
  destruct k as [| k]; [contradiction Hk; reflexivity | ].
  rewrite ustr_chars_pad_S in Hv |- *. unfold signed.
  destruct (pad_char _ (decimal_digit_bounds n k)) as (_ & _ & _ & -> & -> & _).
  rewrite Hv. reflexivity.
Qed.

Lemma long_from_string_minus_pad (k : nat) (n : Z) :
  k <> O -> (k <= max_str_digits)%nat -> 0 <= n < 10 ^ Z.of_nat k ->
  long_from_string (45%N :: ustr_chars (Datetime.pad k n)) = Some (- n).
Proof.
  intros Hk Hm Hn. unfold long_from_string.
  rewrite strip_space_id by (constructor; [reflexivity | apply pad_no_space]).
  unfold signed. cbn [N.eqb Pos.eqb].
  rewrite (magnitude_pad k n Hk Hm Hn). reflexivity.
Qed.

Lemma int_of_str_minus_pad (db : unicode_db) (k : nat) (n : Z) :
  k <> O -> (k <= max_str_digits)%nat -> 0 <= n < 10 ^ Z.of_nat k ->
  int_of_str db (45%N :: ustr_chars (Datetime.pad k n)) = Some (- n).
Proof.
  intros Hk Hm Hn. unfold int_of_str, to_ascii, is_ascii. cbn [forallb].
  fold (is_ascii (ustr_chars (Datetime.pad k n))).
  rewrite pad_is_ascii. change (N.ltb 45 128) with true. cbn [andb].
  apply long_from_string_minus_pad; assumption.
Qed.

Lemma to_ascii_pad (db : unicode_db) (k : nat) (n : Z) :
  to_ascii db (ustr_chars (Datetime.pad k n)) = ustr_chars (Datetime.pad k n).
Proof. unfold to_ascii. rewrite pad_is_ascii. reflexivity. Qed.

Lemma int_of_str_pad (db : unicode_db) (k : nat) (n : Z) :
  k <> O -> (k <= max_str_digits)%nat -> 0 <= n < 10 ^ Z.of_nat k ->
  int_of_str db (ustr_chars (Datetime.pad k n)) = Some n.
Proof.
  intros. unfold int_of_str. rewrite to_ascii_pad.
  apply long_from_string_pad; assumption.
Qed.

(** *** Characters that end the parse *)

Lemma skip_space_keeps (c : N) (l : pystr) :
  Py_ISSPACE c = false -> In c l -> In c (skip_space l).
Proof.
  intros Hc. induction l as [| a l IH]; intros Hin; [contradiction | ].
  cbn [skip_space]. destruct (Py_ISSPACE a) eqn:Ea; [ | exact Hin].
  destruct Hin as [-> | Hin]; [congruence | auto].
Qed.

Lemma strip_space_keeps (c : N) (l : pystr) :
  Py_ISSPACE c = false -> In c l -> In c (strip_space l).
Proof.
  intros Hc Hin. unfold strip_space.
  apply in_rev. rewrite rev_involutive.
  apply skip_space_keeps; [assumption | ].
  apply in_rev. rewrite rev_involutive.
  apply skip_space_keeps; assumption.
Qed.

Lemma digits_rejects (c : N) (l : pystr) :
  digit_value c = None -> N.eqb c 95 = false -> In c l ->
  forall acc b, digits acc b l = None.
Proof.
  intros Hd Hu. induction l as [| a l IH]; intros Hin acc b; [contradiction | ].
  cbn [digits]. destruct Hin as [-> | Hin].
  - rewrite Hu, Hd. reflexivity.
  - destruct (N.eqb a 95).
    + destruct b; [apply IH, Hin | reflexivity].
    + destruct (digit_value a); [apply IH, Hin | reflexivity].
Qed.

Lemma int_char_false (c : N) :
  int_char c = false ->
  digit_value c = None /\ N.eqb c 95 = false /\ N.eqb c 43 = false
  /\ N.eqb c 45 = false /\ Py_ISSPACE c = false.
Proof.
  unfold int_char, is_digit. intros H.
  repeat (apply orb_false_elim in H; destruct H as [H ?]).
  destruct (digit_value c); [discriminate H | auto].
Qed.

(** A literal with a character that is no digit, underscore, sign or
    ASCII whitespace does not parse. *)
Lemma long_from_string_rejects (l : pystr) (c : N) :
  In c l -> int_char c = false -> long_from_string l = None.
Proof.
  intros Hin Hc. apply int_char_false in Hc.
  destruct Hc as (Hd & Hu & Hp & Hm & Hsp).
  unfold long_from_string.
  pose proof (strip_space_keeps c l Hsp Hin) as Hs.
  destruct (strip_space l) as [| c0 l']; [reflexivity | ].
  unfold signed, magnitude.
  destruct (N.eqb_spec c0 45) as [-> | _].
  - destruct Hs as [<- | Hs]; [discriminate Hm | ].
    rewrite (digits_rejects c l' Hd Hu Hs). reflexivity.
  - destruct (N.eqb_spec c0 43) as [-> | _].
    + destruct Hs as [<- | Hs]; [discriminate Hp | ].
      rewrite (digits_rejects c l' Hd Hu Hs). reflexivity.
    + rewrite (digits_rejects c (c0 :: l') Hd Hu Hs). reflexivity.
Qed.

Lemma int_char_high (c : N) : (127 <= c)%N -> int_char c = false.
Proof.
  intros H. unfold int_char, is_digit, digit_value, Py_ISSPACE.
  repeat match goal with
         | |- context [N.leb ?a ?b] => destruct (N.leb_spec a b)
         | |- context [N.eqb ?a ?b] => destruct (N.eqb_spec a b)
         end; cbn; try reflexivity; lia.
Qed.

Lemma transform_foreign (db : unicode_db) (c : N) (u : pystr) :
  In c u -> foreign db c = true ->
  exists c', In c' (transform db u) /\ int_char c' = false.
Proof.
  intros Hin Hf. induction u as [| ch u IH]; [contradiction | ].
  cbn [transform].
  assert (Hq : int_char 63 = false) by reflexivity.
  destruct Hin as [-> | Hin].
  - unfold foreign in Hf. destruct (N.ltb c 127).
    + exists c. split; [now left | ]. now apply negb_true_iff.
    + apply andb_prop in Hf. destruct Hf as [Hs Ht].
      apply negb_true_iff in Hs. rewrite Hs.
      destruct (todecimal db c); [discriminate Ht | ].
      exists 63%N. split; [now left | exact Hq].
  - destruct (IH Hin) as (c' & Hc' & Hi).
    destruct (N.ltb ch 127); [exists c'; split; [now right | exact Hi] | ].
    destruct (isspace db ch); [exists c'; split; [now right | exact Hi] | ].
    destruct (todecimal db ch).
    + exists c'. split; [now right | exact Hi].
    + exists 63%N. split; [now left | exact Hq].
Qed.

(** A string with a foreign character does not parse, whatever else it
    holds. *)
Lemma int_of_str_rejects (db : unicode_db) (u : pystr) (c : N) :
  In c u -> foreign db c = true -> int_of_str db u = None.
Proof.
  intros Hin Hf. unfold int_of_str, to_ascii.
  destruct (is_ascii u) eqn:Ea.
  - apply (long_from_string_rejects u c Hin).
    unfold foreign in Hf. destruct (N.ltb_spec c 127) as [_ | Hge].
    + now apply negb_true_iff.
    + apply int_char_high, Hge.
  - destruct (transform_foreign db c u Hin Hf) as (c' & Hc' & Hi).
    apply (long_from_string_rejects _ c' Hc' Hi).
Qed.

(** ** The listening port *)

Lemma main_unset (db : unicode_db) (w : world) :
  assoc "PORT" (environ w) = None ->
  main db w = Run (mkRun "main:app" "0.0.0.0" 8000 true).
Proof. unfold main, getenv. intros ->. reflexivity. Qed.

Lemma main_set (db : unicode_db) (w : world) (s : pystr) :
  assoc "PORT" (environ w) = Some s ->
  main db w = match int_of_str db s with
              | Some p => Run (mkRun "main:app" "0.0.0.0" p true)
              | None => Raise ValueError
              end.
Proof.
  unfold main, getenv, int. intros ->. destruct (int_of_str db s); reflexivity.
Qed.

(** C6: the outcome of the [__main__] block depends on the environment
    through the variable [PORT] alone; when [PORT] is unset the server is
    started on port 8000; when [PORT] is set, the port is what [int] makes
    of its value, and for a value of up to [max_str_digits] decimal
    digits that is the number the digits spell. *)
Theorem port_from_PORT_default_8000 (db : unicode_db) (w w' : world) :
  assoc "PORT" (environ w) = assoc "PORT" (environ w') ->
  main db w = main db w'
  /\ (assoc "PORT" (environ w) = None ->
      listening_port (main db w) = Some 8000)
  /\ (forall s p, assoc "PORT" (environ w) = Some s ->
                  int_of_str db s = Some p ->
                  listening_port (main db w) = Some p)
  /\ (forall k n, k <> O -> (k <= max_str_digits)%nat ->
                  0 <= n < 10 ^ Z.of_nat k ->
                  assoc "PORT" (environ w)
                  = Some (ustr_chars (Datetime.pad k n)) ->
                  listening_port (main db w) = Some n).
Proof.
  intros He. split; [ | split; [ | split]].
  - unfold main, getenv. rewrite He. reflexivity.
  - intros Hn. rewrite (main_unset db w Hn). reflexivity.
  - intros s p Hs Hp. rewrite (main_set db w s Hs), Hp. reflexivity.
  - intros k n Hk Hm Hn Hs.
    rewrite (main_set db w _ Hs), (int_of_str_pad db k n Hk Hm Hn).
    reflexivity.
Qed.

Lemma port_from_PORT_default_8000_witness :
  main unicode_excerpt leap_night
  = main unicode_excerpt (mkWorld (utcnow new_year) [("LANG", ustr "C")])
  /\ listening_port (main unicode_excerpt leap_night) = Some 8000
  /\ listening_port (main unicode_excerpt arabic_port) = Some 8080
  /\ listening_port (main unicode_excerpt new_year) = Some 8080.
Proof.
  pose proof (port_from_PORT_default_8000 unicode_excerpt leap_night
                (mkWorld (utcnow new_year) [("LANG", ustr "C")]) eq_refl)
    as (H1 & H2 & _).
  pose proof (port_from_PORT_default_8000 unicode_excerpt
                arabic_port arabic_port eq_refl)
    as (_ & _ & H3 & _).
  pose proof (port_from_PORT_default_8000 unicode_excerpt
                new_year new_year eq_refl)
    as (_ & _ & _ & H4).
  split; [exact H1 | split; [ | split]].
  - apply H2. reflexivity.
  - apply (H3 [160; 1640; 1632; 1640; 1632]%N); reflexivity.
  - apply (H4 4%nat 8080).
    + discriminate.
    + apply Nat.leb_le. reflexivity.
    + cbn. lia.
    + reflexivity.
Defined.

(** C10: when [PORT] is set to a string that [int] does not parse, the
    [__main__] block ends in the [ValueError] of [int]; [uvicorn.run] is
    not reached, so nothing listens and no request is served. *)
Theorem unparsable_PORT_raises_ValueError
        (db : unicode_db) (w : world) (s : pystr) :
  assoc "PORT" (environ w) = Some s ->
  int_of_str db s = None ->
  main db w = Raise ValueError /\ listening_port (main db w) = None.
Proof.
  intros Hs Hp. rewrite (main_set db w s Hs), Hp. split; reflexivity.
Qed.

Lemma unparsable_PORT_raises_ValueError_witness :
  main unicode_excerpt bad_port = Raise ValueError
  /\ listening_port (main unicode_excerpt bad_port) = None.
Proof.
  apply (unparsable_PORT_raises_ValueError
           unicode_excerpt bad_port (ustr "eighty"));
    reflexivity.
Defined.

(** ** Health and the placeholders *)

(** C8: [health_check] returns the [status] ["healthy"] in every world,
    and so does every GET of [/health]: the value is a literal of the
    handler, which looks at nothing but the clock. *)
Theorem health_always_healthy (hs : list (string * string)) (w w' : world) :
  dict_get "status" (health_check w) = Some (VStr "healthy")
  /\ serve app (mkRequest "GET" "/health" hs) w
     = mkResponse 200 (Json (health_check w))
  /\ dict_remove "timestamp" (health_check w)
     = dict_remove "timestamp" (health_check w').
Proof. split; [reflexivity | split; [apply GET_health | reflexivity]]. Qed.

(** C9: [list_agents] and [get_metrics] are constant: any two calls, in
    any two worlds (clock and environment) and for any two requests,
    return identical payloads. *)
Theorem placeholders_are_constant
        (hs hs' : list (string * string)) (w w' : world) :
  list_agents w = list_agents w'
  /\ get_metrics w = get_metrics w'
  /\ serve app (mkRequest "GET" "/api/v1/agents" hs) w
     = serve app (mkRequest "GET" "/api/v1/agents" hs') w'
  /\ serve app (mkRequest "GET" "/api/v1/metrics" hs) w
     = serve app (mkRequest "GET" "/api/v1/metrics" hs') w'.
Proof.
  split; [reflexivity | split; [reflexivity | split]].
  - rewrite !GET_agents. reflexivity.
  - rewrite !GET_metrics. reflexivity.
Qed.

(** ** Requests that no route matches *)

Lemma path_regex_match_spec (pattern p : string) :
  path_regex_match pattern p = true <-> p = pattern \/ p = pattern ++ LF.
Proof.
  unfold path_regex_match. rewrite orb_true_iff, !String.eqb_eq. tauto.
Qed.

Lemma find_all_false {A : Type} (f : A -> bool) (l : list A) :
  (forall x, In x l -> f x = false) -> find f l = None.
Proof.
  induction l as [| a l IH]; intros H; [reflexivity | ].
  cbn [find]. rewrite (H a (or_introl eq_refl)).
  apply IH. intros x Hx. apply H. now right.
Qed.

Lemma matches_none (r : route) (req : request) :
  path_regex_match (route_path r) (path req) = false -> matches r req = NONE.
Proof. unfold matches. intros ->. reflexivity. Qed.

(** With no route matching the path, the router redirects or answers
    not found. *)
Lemma router_unmatched (rs : list route) (req : request) (w : world) :
  (forall r, In r rs -> path_regex_match (route_path r) (path req) = false) ->
  router rs req w = not_found \/ router rs req w = RedirectResponse.
Proof.
  intros H. unfold router.
  rewrite find_all_false
    by (intros r Hr; rewrite (matches_none r req (H r Hr)); reflexivity).
  rewrite find_all_false
    by (intros r Hr; rewrite (matches_none r req (H r Hr)); reflexivity).
  match goal with |- context [if ?b then _ else _] => destruct b end; auto.
Qed.

Lemma call_status (e : endpoint) (w : world) : status_code (call e w) = 200.
Proof. destruct e; reflexivity. Qed.

(** Whatever the routes, the router answers 200 from an endpoint or with
    one of the framework's own responses. *)
Lemma router_cases (rs : list route) (req : request) (w : world) :
  status_code (router rs req w) = 200 \/ framework_default (router rs req w).
Proof.
  unfold router, framework_default.
  destruct (find (fun r => is_full (matches r req)) rs) as [r |] eqn:Ef.
  - apply find_some in Ef. destruct Ef as [_ Ef].
    unfold matches in Ef. unfold handle.
    destruct (path_regex_match (route_path r) (path req)); [ | discriminate Ef].
    destruct (mem (method req) (route_methods r)); [ | discriminate Ef].
    left. apply call_status.
  - destruct (find (fun r => is_partial (matches r req)) rs) as [r |] eqn:Ep.
    + apply find_some in Ep. destruct Ep as [_ Ep].
      unfold matches in Ep. unfold handle.
      destruct (path_regex_match (route_path r) (path req));
        [ | discriminate Ep].
      destruct (mem (method req) (route_methods r)); [discriminate Ep | ].
      auto.
    + match goal with |- context [if ?b then _ else _] => destruct b end; auto.
Qed.

Lemma serve_not_preflight (req : request) (w : world) :
  is_preflight req = false -> serve app req w = router (routes app) req w.
Proof.
  rewrite serve_app. unfold is_preflight, cors.
  destruct (header "origin" req); [ | reflexivity].
  destruct (header "access-control-request-method" req); [ | reflexivity].
  intros ->. reflexivity.
Qed.

(** The middleware answers a preflight request with 200 or 400. *)
Lemma preflight_cases (req : request) (origin rm : string) :
  let r := preflight_response
             {| allow_origins := ["*"]; allow_credentials := true;
                allow_methods := ["*"]; allow_headers := ["*"] |}
             req origin rm in
  r = mkResponse 200 (PlainText "OK")
  \/ r = mkResponse 400 (PlainText "Disallowed CORS method").
Proof.
  unfold preflight_response.
  cbn [allow_origins allow_methods allow_headers].
  change (mem "*" ["*"]) with true. cbn [orb].
  destruct (header "access-control-request-headers" req);
    destruct (mem rm ALL_METHODS); cbn; auto.
Qed.

Lemma serve_cases (req : request) (w : world) :
  status_code (serve app req w) = 200 \/ framework_default (serve app req w).
Proof.
  destruct (is_preflight req) eqn:Ep.
  - rewrite serve_app. unfold is_preflight in Ep. unfold cors.
    destruct (header "origin" req) as [origin |]; [ | discriminate Ep].
    destruct (header "access-control-request-method" req) as [rm |];
      [ | discriminate Ep].
    rewrite Ep.
    destruct (preflight_cases req origin rm) as [-> | ->].
    + left. reflexivity.
    + right. unfold framework_default. auto.
  - rewrite (serve_not_preflight req w Ep). apply router_cases.
Qed.

(** C7, as stated, fails: a CORS preflight request is answered by the
    middleware with status 200 whatever its path, also for a path that is
    no route. *)
Lemma unknown_path_non_2xx_fails :
  ~ (forall req w,
        ~ In (path req) (registered_paths app) ->
        ~ is_2xx (serve app req w)).
Proof.
  intros H. apply (H preflight leap_night).
  - cbn. intuition discriminate.
  - unfold is_2xx. cbn. lia.
Qed.

(** C7, amended: for every request that is not a CORS preflight and
    whose path no registered route matches (the five handler paths and the
    framework's documentation paths), the service answers with the
    framework's 404 not-found response or its 307 redirect, never a 2xx
    status; and no handler defines an error path: every response with a
    status other than 200 is one of the framework's own. *)
Theorem unmatched_path_not_2xx (req : request) (w : world) :
  is_preflight req = false ->
  (forall p, In p (registered_paths app) ->
             path req <> p /\ path req <> p ++ LF) ->
  (serve app req w = not_found \/ serve app req w = RedirectResponse)
  /\ ~ is_2xx (serve app req w)
  /\ (forall req' w', status_code (serve app req' w') <> 200 ->
                      framework_default (serve app req' w')).
Proof.
  intros Hp Hu.
  assert (Hr : serve app req w = not_found
               \/ serve app req w = RedirectResponse).
  { rewrite (serve_not_preflight req w Hp). apply router_unmatched.
    intros r Hr. apply not_true_is_false. intros Hm.
    apply path_regex_match_spec in Hm.
    destruct (Hu (route_path r) (in_map route_path _ r Hr)). tauto. }
  split; [exact Hr | split].
  - unfold is_2xx. destruct Hr as [-> | ->]; cbn; lia.
  - intros req' w' Hs. destruct (serve_cases req' w'); tauto.
Qed.

Lemma unmatched_path_not_2xx_witness :
  (serve app (GET "/nope") leap_night = not_found
   \/ serve app (GET "/nope") leap_night = RedirectResponse)
  /\ ~ is_2xx (serve app (GET "/nope") leap_night)
  /\ (forall req' w', status_code (serve app req' w') <> 200 ->
                      framework_default (serve app req' w')).
Proof.
  apply (unmatched_path_not_2xx (GET "/nope") leap_night).
  - reflexivity.
  - intros p Hp. cbn in Hp.
    repeat (destruct Hp as [<- | Hp]; [split; discriminate | ]).
    contradiction.
Defined.

(** ** The model at work *)

Example isoformat_with_microseconds :
  Datetime.isoformat (utcnow leap_night) = "2024-02-29T23:59:07.001500".
Proof. reflexivity. Qed.

Example isoformat_whole_second :
  Datetime.isoformat (utcnow new_year) = "2025-01-01T00:00:00".
Proof. reflexivity. Qed.

Example fromisoformat_rejects_bad_day :
  Datetime.fromisoformat "2023-02-29T10:00:00" = None.
Proof. reflexivity. Qed.

Example registered_paths_app :
  registered_paths app
  = ["/openapi.json"; "/api/docs"; "/docs/oauth2-redirect"; "/api/redoc";
     "/"; "/health"; "/api/v1/status"; "/api/v1/agents"; "/api/v1/metrics"].
Proof. reflexivity. Qed.

Example GET_docs_is_200 :
  serve app (GET "/api/docs") leap_night = mkResponse 200 (Html SwaggerUI).
Proof. reflexivity. Qed.

Example POST_health_is_405 :
  serve app (mkRequest "POST" "/health" []) leap_night = method_not_allowed.
Proof. reflexivity. Qed.

Example GET_health_slash_is_307 :
  serve app (GET "/health/") leap_night = RedirectResponse.
Proof. reflexivity. Qed.

Example GET_health_newline_is_200 :
  serve app (GET ("/health" ++ LF)) leap_night
  = mkResponse 200 (Json (health_check leap_night)).
Proof. reflexivity. Qed.

Example GET_unknown_is_404 :
  serve app (GET "/api/v2/agents") leap_night = not_found.
Proof. reflexivity. Qed.

Example preflight_is_200 :
  serve app preflight leap_night = mkResponse 200 (PlainText "OK").
Proof. reflexivity. Qed.

(** * Further properties of the service *)

(** ** Methods *)

Lemma mem_singleton_neq (m x : string) : m <> x -> mem m [x] = false.
Proof.
  intros H. unfold mem. cbn [existsb].
  rewrite (proj2 (String.eqb_neq m x) H). reflexivity.
Qed.

(** A route that matches the path but not the method, and no route that
    matches both: the router answers 405. *)
Lemma router_partial (rs : list route) (req : request) (w : world) :
  (forall r, In r rs -> is_full (matches r req) = false) ->
  (exists r, In r rs /\ is_partial (matches r req) = true) ->
  router rs req w = method_not_allowed.
Proof.
  intros Hf (r0 & Hin & Hp). unfold router.
  rewrite (find_all_false _ rs Hf).
  destruct (find (fun r => is_partial (matches r req)) rs) as [r |] eqn:E.
  - apply find_some in E. destruct E as [_ E].
    unfold handle. unfold matches in E.
    destruct (path_regex_match (route_path r) (path req)); [ | discriminate E].
    destruct (mem (method req) (route_methods r)); [discriminate E | reflexivity].
  - pose proof (find_none _ _ E r0 Hin) as Hn. cbv beta in Hn. congruence.
Qed.

Lemma handler_route_not_full (m p : string) (hs : list (string * string)) :
  m <> "GET" -> In p handler_paths ->
  forall r, In r (routes app) ->
            is_full (matches r (mkRequest m p hs)) = false.
Proof.
  intros Hm Hp r Hr. pose proof (mem_singleton_neq m "GET" Hm) as Hg.
  cbn in Hp.
  repeat (destruct Hp as [<- | Hp];
          [ cbn in Hr;
            repeat (destruct Hr as [<- | Hr];
                    [ first [ reflexivity
                            | unfold matches; cbn [route_path route_methods
                                                   path method APIRoute];
                              rewrite Hg;
                              match goal with
                              | |- context [if ?b then _ else _] =>
                                  destruct b
                              end; reflexivity ]
                    | ]);
            contradiction
          | ]).
  contradiction.
Qed.

Lemma handler_route_partial (m p : string) (hs : list (string * string)) :
  m <> "GET" -> In p handler_paths ->
  exists r, In r (routes app)
            /\ is_partial (matches r (mkRequest m p hs)) = true.
Proof.
  intros Hm Hp. pose proof (mem_singleton_neq m "GET" Hm) as Hg.
  cbn in Hp.
  destruct Hp as [<- | [<- | [<- | [<- | [<- | []]]]]].
  - exists (APIRoute "/" ["GET"] (Coroutine "root" root)).
    split; [cbn; tauto | ]. unfold matches. cbn [route_methods APIRoute method].
    rewrite Hg. reflexivity.
  - exists (APIRoute "/health" ["GET"] (Coroutine "health_check" health_check)).
    split; [cbn; tauto | ]. unfold matches. cbn [route_methods APIRoute method].
    rewrite Hg. reflexivity.
  - exists (APIRoute "/api/v1/status" ["GET"] (Coroutine "api_status" api_status)).
    split; [cbn; tauto | ]. unfold matches. cbn [route_methods APIRoute method].
    rewrite Hg. reflexivity.
  - exists (APIRoute "/api/v1/agents" ["GET"] (Coroutine "list_agents" list_agents)).
    split; [cbn; tauto | ]. unfold matches. cbn [route_methods APIRoute method].
    rewrite Hg. reflexivity.
  - exists (APIRoute "/api/v1/metrics" ["GET"] (Coroutine "get_metrics" get_metrics)).
    split; [cbn; tauto | ]. unfold matches. cbn [route_methods APIRoute method].
    rewrite Hg. reflexivity.
Qed.

(** X1: on each of the five handler paths, a request with any method
    other than GET (HEAD included) that is not a CORS preflight is answered
    405 Method Not Allowed, whatever its headers. *)
Theorem other_methods_not_allowed (req : request) (w : world) :
  is_preflight req = false ->
  In (path req) handler_paths ->
  method req <> "GET" ->
  serve app req w = method_not_allowed.
Proof.
  intros Hp Hin Hm. rewrite (serve_not_preflight req w Hp).
  destruct req as [m p hs]. cbn [path method] in *.
  apply router_partial.
  - apply handler_route_not_full; assumption.
  - apply handler_route_partial; assumption.
Qed.

Lemma other_methods_not_allowed_witness :
  serve app (mkRequest "HEAD" "/api/v1/agents" [("origin", "http://a")])
    leap_night
  = method_not_allowed.
Proof.
  apply other_methods_not_allowed.
  - reflexivity.
  - cbn. tauto.
  - discriminate.
Defined.

(** ** The CORS middleware in front of the router *)

(** X2: a CORS preflight request (OPTIONS with [Origin] and
    [Access-Control-Request-Method]) never reaches the router: whatever
    its path, origin and requested headers, it is answered 200 [OK] when
    the requested method is one of the seven standard methods, and 400
    otherwise. *)
Theorem preflight_answered_by_middleware (req : request) (w : world) :
  is_preflight req = true ->
  exists rm,
    header "access-control-request-method" req = Some rm
    /\ serve app req w
       = if mem rm ALL_METHODS
         then mkResponse 200 (PlainText "OK")
         else mkResponse 400 (PlainText "Disallowed CORS method").
Proof.
  intros Hp. rewrite serve_app. unfold is_preflight in Hp. unfold cors.
  destruct (header "origin" req) as [origin |]; [ | discriminate Hp].
  destruct (header "access-control-request-method" req) as [rm |];
    [ | discriminate Hp].
  rewrite Hp. exists rm. split; [reflexivity | ].
  unfold preflight_response.
  cbn [allow_origins allow_methods allow_headers].
  change (mem "*" ["*"]) with true. cbn [orb].
  destruct (header "access-control-request-headers" req);
    destruct (mem rm ALL_METHODS); reflexivity.
Qed.

Lemma preflight_answered_by_middleware_witness :
  exists rm,
    header "access-control-request-method"
      (mkRequest "OPTIONS" "/health"
         [("origin", "null"); ("access-control-request-method", "TRACE")])
    = Some rm
    /\ serve app
         (mkRequest "OPTIONS" "/health"
            [("origin", "null"); ("access-control-request-method", "TRACE")])
         new_year
       = if mem rm ALL_METHODS
         then mkResponse 200 (PlainText "OK")
         else mkResponse 400 (PlainText "Disallowed CORS method").
Proof. apply preflight_answered_by_middleware. reflexivity. Defined.

Lemma router_headers (rs : list route) (m p : string)
      (hs hs' : list (string * string)) (w : world) :
  router rs (mkRequest m p hs) w = router rs (mkRequest m p hs') w.
Proof. reflexivity. Qed.

(** X3: apart from preflight requests, the status and body of a response
    depend on the method and the path alone: two requests that differ only
    in their headers get the same answer. *)
Theorem response_ignores_headers
        (m p : string) (hs hs' : list (string * string)) (w : world) :
  is_preflight (mkRequest m p hs) = false ->
  is_preflight (mkRequest m p hs') = false ->
  serve app (mkRequest m p hs) w = serve app (mkRequest m p hs') w.
Proof.
  intros H H'. rewrite (serve_not_preflight _ w H), (serve_not_preflight _ w H').
  apply router_headers.
Qed.

Lemma response_ignores_headers_witness :
  serve app (mkRequest "GET" "/health" [("origin", "http://a")]) leap_night
  = serve app (mkRequest "GET" "/health" [("cookie", "k=v")]) leap_night.
Proof. apply response_ignores_headers; reflexivity. Defined.

(** ** What a response can depend on *)

Lemma router_world (rs : list route) (req : request) (w w' : world) :
  (forall r, In r rs -> call (route_endpoint r) w = call (route_endpoint r) w') ->
  router rs req w = router rs req w'.
Proof.
  intros H. unfold router.
  destruct (find (fun r => is_full (matches r req)) rs) as [r |] eqn:Ef.
  - apply find_some in Ef. unfold handle. rewrite (H r (proj1 Ef)). reflexivity.
  - destruct (find (fun r => is_partial (matches r req)) rs) as [r |] eqn:Ep;
      [ | reflexivity].
    apply find_some in Ep. unfold handle. rewrite (H r (proj1 Ep)). reflexivity.
Qed.

Lemma cors_world (c : cors_config) (inner : request -> world -> response)
      (req : request) (w w' : world) :
  inner req w = inner req w' -> cors c inner req w = cors c inner req w'.
Proof.
  intros H. unfold cors.
  destruct (header "origin" req); [ | exact H].
  destruct (header "access-control-request-method" req); [ | exact H].
  destruct (String.eqb (method req) "OPTIONS"); [reflexivity | exact H].
Qed.

Lemma call_same_clock (w w' : world) :
  utcnow w = utcnow w' ->
  forall r, In r (routes app) ->
            call (route_endpoint r) w = call (route_endpoint r) w'.
Proof.
  intros Hc r Hr. cbn in Hr.
  repeat (destruct Hr as [<- | Hr];
          [ cbn [route_endpoint Route APIRoute call];
            first [ reflexivity
                  | unfold root; rewrite Hc; reflexivity
                  | unfold health_check; rewrite Hc; reflexivity
                  | unfold api_status; rewrite Hc; reflexivity ]
          | ]).
  contradiction.
Qed.

(** X4: no response depends on the process environment: for any request,
    two worlds whose clocks read the same give the same response, whatever
    their environment variables hold. *)
Theorem response_ignores_environment (req : request) (w w' : world) :
  utcnow w = utcnow w' -> serve app req w = serve app req w'.
Proof.
  intros Hc. rewrite serve_app. apply cors_world, router_world.
  apply call_same_clock, Hc.
Qed.

Lemma response_ignores_environment_witness :
  serve app (GET "/") new_year = serve app (GET "/") bad_port.
Proof. apply response_ignores_environment. reflexivity. Defined.

(** ** Timestamps and the clock *)

Lemma timestamp_field (fn : world -> value) (w w' : world) (s s' : string) :
  dict_get "timestamp" (fn w) = Some (VStr s) ->
  dict_get "timestamp" (fn w') = Some (VStr s') ->
  fn w = fn w' -> s = s'.
Proof. intros H H' E. rewrite E, H' in H. now injection H. Qed.

Lemma isoformat_injective (d d' : Datetime.datetime) :
  Datetime.valid d = true -> Datetime.valid d' = true ->
  Datetime.isoformat d = Datetime.isoformat d' -> d = d'.
Proof.
  intros Hv Hv' E. apply (f_equal Datetime.fromisoformat) in E.
  rewrite !DatetimeFacts.fromisoformat_isoformat in E by assumption.
  now injection E.
Qed.

(** X5: the payloads of [root], [health_check] and [api_status] follow the
    clock and nothing else: under valid clock readings, two calls return
    equal payloads exactly when their clock readings are equal. *)
Theorem payload_equal_iff_clock_equal (w w' : world) :
  Datetime.valid (utcnow w) = true ->
  Datetime.valid (utcnow w') = true ->
  Forall (fun fn : world -> value => fn w = fn w' <-> utcnow w = utcnow w')
         [root; health_check; api_status].
Proof.
  intros Hv Hv'.
  assert (Hinj : forall fn : world -> value,
             (forall x, dict_get "timestamp" (fn x)
                        = Some (VStr (Datetime.isoformat (utcnow x)))) ->
             fn w = fn w' -> utcnow w = utcnow w').
  { intros fn Hts E. apply isoformat_injective; try assumption.
    exact (timestamp_field fn w w' _ _ (Hts w) (Hts w') E). }
  repeat constructor.
  - apply (Hinj root). intros x. reflexivity.
  - intros E. unfold root. rewrite E. reflexivity.
  - apply (Hinj health_check). intros x. reflexivity.
  - intros E. unfold health_check. rewrite E. reflexivity.
  - apply (Hinj api_status). intros x. reflexivity.
  - intros E. unfold api_status. rewrite E. reflexivity.
Qed.

Lemma payload_equal_iff_clock_equal_witness :
  Forall (fun fn : world -> value =>
            fn new_year = fn bad_port <-> utcnow new_year = utcnow bad_port)
         [root; health_check; api_status].
Proof. apply payload_equal_iff_clock_equal; reflexivity. Defined.

Lemma length_string_of_list_ascii (l : list ascii) :
  String.length (string_of_list_ascii l) = List.length l.
Proof. induction l as [| c l IH]; cbn; congruence. Qed.

Lemma isoformat_length (d : Datetime.datetime) :
  String.length (Datetime.isoformat d)
  = if Datetime.microsecond d =? 0 then 19%nat else 26%nat.
Proof.
  unfold Datetime.isoformat, Datetime.isoformat_chars.
  rewrite length_string_of_list_ascii.
  repeat first [ rewrite length_app | rewrite DatetimeFacts.length_pad
               | progress cbn [List.length] ].
  destruct (Datetime.microsecond d =? 0); cbn [List.length];
    rewrite ?DatetimeFacts.length_pad; reflexivity.
Qed.

(** X6: the timestamp of [root], [health_check] and [api_status] has a
    fixed width and no time-zone suffix: 19 characters
    ([YYYY-MM-DDTHH:MM:SS]) when the clock's microsecond is zero, and 26
    (with [.ffffff]) otherwise. *)
Theorem timestamp_width (w : world) :
  Forall
    (fun fn : world -> value =>
       exists s, dict_get "timestamp" (fn w) = Some (VStr s)
                 /\ String.length s
                    = if Datetime.microsecond (utcnow w) =? 0
                      then 19%nat else 26%nat)
    [root; health_check; api_status].
Proof.
  repeat constructor;
    (eexists; split; [reflexivity | apply isoformat_length]).
Qed.

(** ** Paths next to the registered ones *)

(** X7: a request for a registered path other than [/] with one trailing
    slash added is answered with the 307 redirect, for every method and
    whatever the headers, unless it is a CORS preflight. *)
Theorem trailing_slash_redirects
        (m p : string) (hs : list (string * string)) (w : world) :
  In p (registered_paths app) ->
  p <> "/" ->
  is_preflight (mkRequest m (p ++ "/") hs) = false ->
  serve app (mkRequest m (p ++ "/") hs) w = RedirectResponse.
Proof.
  intros Hin Hne Hp. rewrite (serve_not_preflight _ w Hp). clear Hp.
  cbn in Hin.
  repeat (destruct Hin as [<- | Hin];
          [ first
              [ contradiction Hne; reflexivity
              | unfold router; cbn;
                repeat match goal with
                       | |- context [String.eqb m ?x] =>
                           destruct (String.eqb m x)
                       end;
                reflexivity ]
          | ]).
  contradiction.
Qed.

Lemma trailing_slash_redirects_witness :
  serve app (mkRequest "DELETE" ("/api/v1/metrics" ++ "/") []) leap_night
  = RedirectResponse.
Proof.
  apply trailing_slash_redirects.
  - cbn. tauto.
  - discriminate.
  - reflexivity.
Defined.

(** X8: the documentation lives under the URLs given to [FastAPI(...)]:
    GET and HEAD of [/api/docs], [/api/redoc] and [/openapi.json] are
    answered 200 with the Swagger page, the ReDoc page and the schema,
    while the framework's default locations [/docs] and [/redoc] are not
    found. *)
Theorem documentation_urls
        (m : string) (hs : list (string * string)) (w : world) :
  m = "GET" \/ m = "HEAD" ->
  serve app (mkRequest m "/api/docs" hs) w = mkResponse 200 (Html SwaggerUI)
  /\ serve app (mkRequest m "/api/redoc" hs) w = mkResponse 200 (Html ReDoc)
  /\ serve app (mkRequest m "/openapi.json" hs) w = mkResponse 200 OpenAPISchema
  /\ serve app (mkRequest m "/docs" hs) w = not_found
  /\ serve app (mkRequest m "/redoc" hs) w = not_found.
Proof.
  intros Hm.
  assert (Hp : forall p, is_preflight (mkRequest m p hs) = false).
  { intros p. unfold is_preflight. cbn [method].
    destruct (header "origin" (mkRequest m p hs)); [ | reflexivity].
    destruct (header "access-control-request-method" (mkRequest m p hs));
      [ | reflexivity].
    destruct Hm as [-> | ->]; reflexivity. }
  rewrite !serve_not_preflight by apply Hp.
  destruct Hm as [-> | ->]; repeat split; reflexivity.
Qed.

Lemma documentation_urls_witness :
  serve app (mkRequest "HEAD" "/api/docs" []) leap_night
  = mkResponse 200 (Html SwaggerUI)
  /\ serve app (mkRequest "HEAD" "/docs" []) leap_night = not_found.
Proof.
  destruct (documentation_urls "HEAD" [] leap_night (or_intror eq_refl))
    as (H1 & _ & _ & H4 & _).
  split; [exact H1 | exact H4].
Defined.

(** ** What the payloads say about the application *)

(** X14: the links and the version that [root] reports, against the
    application: [docs] is the configured [docs_url] and is served,
    [health] is served by [health_check], [api] ([/api/v1]) is no route and
    is answered 404, and the [version] of [root] and of [health_check] is
    the version given to [FastAPI(...)]. *)
Theorem root_links_and_version (hs : list (string * string)) (w : world) :
  exists e docs health api,
    dict_get "endpoints" (root w) = Some e
    /\ dict_get "docs" e = Some (VStr docs)
    /\ dict_get "health" e = Some (VStr health)
    /\ dict_get "api" e = Some (VStr api)
    /\ docs_url app = Some docs
    /\ serve app (mkRequest "GET" docs hs) w = mkResponse 200 (Html SwaggerUI)
    /\ serve app (mkRequest "GET" health hs) w
       = mkResponse 200 (Json (health_check w))
    /\ serve app (mkRequest "GET" api hs) w = not_found
    /\ dict_get "version" (root w) = Some (VStr (version app))
    /\ dict_get "version" (health_check w) = Some (VStr (version app)).
Proof.
  do 4 eexists.
  repeat (split; [reflexivity | ]).
  split; [rewrite serve_GET; reflexivity | ].
  split; [apply GET_health | ].
  split; [rewrite serve_GET; reflexivity | ].
  split; reflexivity.
Qed.

(** X15: every GET of [/api/v1/status] is answered by [api_status], which
    reports API version [v1], status [operational] and four features
    (agent management, observability, governance, analytics), each of
    them [coming_soon]. *)
Theorem status_features_all_coming_soon
        (hs : list (string * string)) (w : world) :
  serve app (mkRequest "GET" "/api/v1/status" hs) w
  = mkResponse 200 (Json (api_status w))
  /\ dict_get "api_version" (api_status w) = Some (VStr "v1")
  /\ dict_get "status" (api_status w) = Some (VStr "operational")
  /\ exists fs,
      dict_get "features" (api_status w) = Some (VDict fs)
      /\ map fst fs
         = ["agent_management"; "observability"; "governance"; "analytics"]
      /\ Forall (fun kv => snd kv = VStr "coming_soon") fs.
Proof.
  split; [apply GET_status | ].
  split; [reflexivity | split; [reflexivity | ]].
  eexists. split; [reflexivity | split; [reflexivity | ]].
  repeat constructor.
Qed.

(** ** What [int] makes of the value of [PORT] *)

(** X9: when [PORT] holds the decimal digits of [n], at most
    [max_str_digits] of them, with or without leading zeros, the server is
    started by
    [uvicorn.run("main:app", host="0.0.0.0", port=n, reload=True)]. *)
Theorem PORT_digits_select_port
        (db : unicode_db) (w : world) (k : nat) (n : Z) :
  k <> O -> (k <= max_str_digits)%nat ->
  0 <= n < 10 ^ Z.of_nat k ->
  assoc "PORT" (environ w) = Some (ustr_chars (Datetime.pad k n)) ->
  main db w = Run (mkRun "main:app" "0.0.0.0" n true).
Proof.
  intros Hk Hm Hn He. rewrite (main_set db w _ He).
  rewrite (int_of_str_pad db k n Hk Hm Hn). reflexivity.
Qed.

Lemma PORT_digits_select_port_witness :
  main unicode_excerpt (mkWorld (utcnow leap_night) [("PORT", ustr "08080")])
  = Run (mkRun "main:app" "0.0.0.0" 8080 true).
Proof.
  apply (PORT_digits_select_port unicode_excerpt _ 5%nat 8080).
  - discriminate.
  - apply Nat.leb_le. reflexivity.
  - cbn. lia.
  - reflexivity.
Defined.

(** X10: the port is not checked against the range of ports: for every
    integer [p] of at most [max_str_digits] digits, negative or above
    65535 as well, some value of [PORT] makes the block call
    [uvicorn.run] with [port=p]. *)
Theorem port_not_range_checked
        (db : unicode_db) (p : Z) (now : Datetime.datetime)
        (env : list (string * pystr)) :
  Z.abs p < 10 ^ Z.of_nat max_str_digits ->
  exists s,
    main db (mkWorld now (("PORT", s) :: env))
    = Run (mkRun "main:app" "0.0.0.0" p true).
Proof.
  intros Hb.
  assert (Hk : max_str_digits <> O) by discriminate.
  destruct (Z.ltb_spec p 0) as [Hneg | Hpos].
  - exists (45%N :: ustr_chars (Datetime.pad max_str_digits (- p))).
    rewrite (main_set db (mkWorld now (("PORT", _) :: env)) _ eq_refl).
    rewrite int_of_str_minus_pad by (auto; lia).
    rewrite Z.opp_involutive. reflexivity.
  - exists (ustr_chars (Datetime.pad max_str_digits p)).
    rewrite (main_set db (mkWorld now (("PORT", _) :: env)) _ eq_refl).
    rewrite int_of_str_pad by (auto; lia). reflexivity.
Qed.

Lemma port_not_range_checked_witness :
  exists s,
    main unicode_excerpt (mkWorld (utcnow leap_night) [("PORT", s)])
    = Run (mkRun "main:app" "0.0.0.0" (-70000) true).
Proof.
  apply (port_not_range_checked unicode_excerpt (-70000)).
  apply Z.ltb_lt. vm_compute. reflexivity.
Defined.

(** X11: a value of [PORT] with a foreign character (below 127, one that
    is neither a digit, an underscore, a sign nor ASCII whitespace; from
    127 on, one that is neither a Unicode space nor a Unicode decimal
    digit) ends the block in [ValueError]; the server is not started. *)
Theorem PORT_with_foreign_character_fails
        (db : unicode_db) (w : world) (s : pystr) (c : N) :
  assoc "PORT" (environ w) = Some s ->
  In c s ->
  foreign db c = true ->
  main db w = Raise ValueError.
Proof.
  intros He Hin Hc. rewrite (main_set db w s He).
  rewrite (int_of_str_rejects db s c Hin Hc). reflexivity.
Qed.

Lemma PORT_with_foreign_character_fails_witness :
  main unicode_excerpt (mkWorld (utcnow leap_night) [("PORT", ustr "8000;")])
  = Raise ValueError.
Proof.
  apply (PORT_with_foreign_character_fails
           unicode_excerpt _ (ustr "8000;") 59%N).
  - reflexivity.
  - cbn. tauto.
  - reflexivity.
Defined.

(** X12: a single underscore between two groups of digits is skipped:
    when [PORT] holds [k] digits of [a], an underscore and [j] digits of
    [b], with [k + j] at most [max_str_digits], the server is started on
    port [a * 10^j + b]. *)
Theorem PORT_underscore_between_digits
        (db : unicode_db) (w : world) (k j : nat) (a b : Z) :
  k <> O -> j <> O -> (k + j <= max_str_digits)%nat ->
  0 <= a < 10 ^ Z.of_nat k ->
  0 <= b < 10 ^ Z.of_nat j ->
  assoc "PORT" (environ w)
  = Some (ustr_chars (Datetime.pad k a)
          ++ 95%N :: ustr_chars (Datetime.pad j b))%list ->
  main db w = Run (mkRun "main:app" "0.0.0.0" (a * 10 ^ Z.of_nat j + b) true).
Proof.
  intros Hk Hj Hm Ha Hb He. rewrite (main_set db w _ He).
  unfold int_of_str, to_ascii, is_ascii.
  rewrite forallb_app. cbn [forallb].
  fold (is_ascii (ustr_chars (Datetime.pad k a))).
  fold (is_ascii (ustr_chars (Datetime.pad j b))).
  rewrite !pad_is_ascii. cbn [N.ltb N.compare Pos.compare Pos.compare_cont andb].
  unfold long_from_string.
  rewrite strip_space_id
    by (apply Forall_app; split;
        [apply pad_no_space | constructor; [reflexivity | apply pad_no_space]]).
  assert (Hv : magnitude (ustr_chars (Datetime.pad k a)
                          ++ 95%N :: ustr_chars (Datetime.pad j b))%list
               = Some (a * 10 ^ Z.of_nat j + b)).
  { unfold magnitude.
    rewrite digits_pad_app by lia. rewrite Z.mod_small by lia.
    cbn [Z.mul Z.add orb digits N.eqb Pos.eqb].
    destruct k as [| k]; [contradiction Hk; reflexivity | ].
    cbn [Nat.eqb negb].
    rewrite (digits_pad j b a Hj Hb).
    rewrite digit_count_app. unfold digit_count at 2. cbn [filter].
    change (is_digit 95) with false. cbv iota.
    fold (digit_count (ustr_chars (Datetime.pad j b))).
    rewrite !digit_count_pad, (within_limit _ Hm). reflexivity. }
  destruct k as [| k]; [contradiction Hk; reflexivity | ].
  rewrite ustr_chars_pad_S in Hv |- *. cbn [List.app] in Hv |- *.
  unfold signed.
  destruct (pad_char _ (decimal_digit_bounds a k)) as (_ & _ & _ & -> & -> & _).
  rewrite Hv. reflexivity.
Qed.

Lemma PORT_underscore_between_digits_witness :
  main unicode_excerpt (mkWorld (utcnow leap_night) [("PORT", ustr "8_000")])
  = Run (mkRun "main:app" "0.0.0.0" (8 * 10 ^ Z.of_nat 3 + 0) true).
Proof.
  apply (PORT_underscore_between_digits unicode_excerpt _ 1%nat 3%nat 8 0).
  - discriminate.
  - discriminate.
  - apply Nat.leb_le. reflexivity.
  - cbn. lia.
  - cbn. lia.
  - reflexivity.
Defined.

(** *** Whitespace around the literal *)

Lemma skip_space_app_l (ws l : pystr) :
  all_space ws = true -> skip_space (ws ++ l)%list = skip_space l.
Proof.
  induction ws as [| c ws IH]; intros H; [reflexivity | ].
  cbn [all_space forallb] in H. apply andb_prop in H. destruct H as [Hc H].
  cbn [List.app skip_space]. rewrite Hc. apply IH, H.
Qed.

Lemma skip_space_all (l : pystr) : all_space l = true -> skip_space l = [].
Proof.
  intros H. rewrite <- (app_nil_r l). apply (skip_space_app_l l [] H).
Qed.

Lemma skip_space_app_r (l ws : pystr) :
  all_space ws = true ->
  skip_space (l ++ ws)%list = match skip_space l with
                         | [] => []
                         | _ => (skip_space l ++ ws)%list
                         end.
Proof.
  intros H. induction l as [| c l IH].
  - cbn [List.app skip_space]. apply skip_space_all, H.
  - cbn [List.app skip_space]. destruct (Py_ISSPACE c); [exact IH | reflexivity].
Qed.

Lemma all_space_rev (l : pystr) : all_space (rev l) = all_space l.
Proof.
  unfold all_space. destruct (forallb Py_ISSPACE l) eqn:E.
  - rewrite forallb_forall in E |- *. intros c Hc. apply E, in_rev, Hc.
  - apply not_true_is_false. intros H. rewrite forallb_forall in H.
    assert (forallb Py_ISSPACE l = true).
    { apply forallb_forall. intros c Hc. apply H. rewrite <- in_rev. exact Hc. }
    congruence.
Qed.

Lemma strip_space_spaces (ws l ws' : pystr) :
  all_space ws = true -> all_space ws' = true ->
  strip_space (ws ++ l ++ ws')%list = strip_space l.
Proof.
  intros H H'. unfold strip_space.
  rewrite (skip_space_app_l ws _ H), (skip_space_app_r l ws' H').
  destruct (skip_space l) as [| c t]; [reflexivity | ].
  rewrite rev_app_distr, skip_space_app_l by (rewrite all_space_rev; exact H').
  reflexivity.
Qed.

Lemma long_from_string_spaces (ws l ws' : pystr) :
  all_space ws = true -> all_space ws' = true ->
  long_from_string (ws ++ l ++ ws')%list = long_from_string l.
Proof.
  intros H H'. unfold long_from_string.
  rewrite (strip_space_spaces ws l ws' H H'). reflexivity.
Qed.

Lemma space_low (c : N) : Py_ISSPACE c = true -> N.ltb c 127 = true.
Proof.
  unfold Py_ISSPACE. intros H. apply N.ltb_lt.
  destruct (N.leb_spec 9 c), (N.leb_spec c 13), (N.eqb_spec c 32);
    cbn in H; try discriminate H; lia.
Qed.

Lemma all_space_is_ascii (ws : pystr) : all_space ws = true -> is_ascii ws = true.
Proof.
  unfold all_space, is_ascii. rewrite !forallb_forall. intros H c Hc.
  pose proof (space_low c (H c Hc)) as Hl.
  apply N.ltb_lt in Hl. apply N.ltb_lt. lia.
Qed.

Lemma transform_app_l (db : unicode_db) (ws u : pystr) :
  all_space ws = true -> transform db (ws ++ u)%list = (ws ++ transform db u)%list.
Proof.
  induction ws as [| c ws IH]; intros H; [reflexivity | ].
  cbn [all_space forallb] in H. apply andb_prop in H. destruct H as [Hc H].
  cbn [List.app transform]. rewrite (space_low c Hc), (IH H). reflexivity.
Qed.

Lemma transform_spaces (db : unicode_db) (ws : pystr) :
  all_space ws = true -> transform db ws = ws.
Proof.
  intros H. rewrite <- (app_nil_r ws) at 1.
  rewrite (transform_app_l db ws [] H). apply app_nil_r.
Qed.

Lemma transform_app_r (db : unicode_db) (u t : pystr) :
  (forallb (decodable db) u = true
   /\ transform db (u ++ t)%list = (transform db u ++ transform db t)%list)
  \/ (transform db (u ++ t)%list = transform db u /\ In 63%N (transform db u)).
Proof.
  induction u as [| ch u IH]; [left; split; reflexivity | ].
  cbn [List.app transform forallb]. unfold decodable at 1.
  destruct (N.ltb ch 127); cbn [orb].
  - destruct IH as [[Hd ->] | [-> Hin]]; [left | right]; split; auto.
    now right.
  - destruct (isspace db ch); cbn [orb].
    + destruct IH as [[Hd ->] | [-> Hin]]; [left | right]; split; auto.
      now right.
    + destruct (todecimal db ch).
      * destruct IH as [[Hd ->] | [-> Hin]]; [left | right]; split; auto.
        now right.
      * right. split; [reflexivity | now left].
Qed.

Lemma int_of_str_spaces (db : unicode_db) (ws s ws' : pystr) :
  all_space ws = true -> all_space ws' = true ->
  int_of_str db (ws ++ s ++ ws')%list = int_of_str db s.
Proof.
  intros H H'. unfold int_of_str, to_ascii, is_ascii.
  rewrite !forallb_app.
  fold (is_ascii ws). fold (is_ascii s). fold (is_ascii ws').
  rewrite (all_space_is_ascii ws H), (all_space_is_ascii ws' H').
  rewrite andb_true_r. cbn [andb].
  destruct (is_ascii s); [apply long_from_string_spaces; assumption | ].
  rewrite (transform_app_l db ws _ H).
  destruct (transform_app_r db s ws') as [[_ ->] | [-> Hin]].
  - rewrite (transform_spaces db ws' H').
    apply long_from_string_spaces; assumption.
  - rewrite (long_from_string_rejects (transform db s) 63 Hin eq_refl).
    apply (long_from_string_rejects _ 63); [ | reflexivity].
    apply in_or_app. now right.
Qed.

(** X13: ASCII whitespace around the value of [PORT] does not matter: a
    value and the same value with blanks, tabs or line ends before and
    after it end the block in the same way, with the same port or the same
    [ValueError]. *)
Theorem PORT_surrounding_whitespace_ignored
        (db : unicode_db) (w w' : world) (s ws ws' : pystr) :
  assoc "PORT" (environ w) = Some s ->
  assoc "PORT" (environ w') = Some (ws ++ s ++ ws')%list ->
  all_space ws = true -> all_space ws' = true ->
  main db w' = main db w.
Proof.
  intros He He' H H'.
  rewrite (main_set db w s He), (main_set db w' _ He').
  rewrite (int_of_str_spaces db ws s ws' H H'). reflexivity.
Qed.

Lemma PORT_surrounding_whitespace_ignored_witness :
  main unicode_excerpt
    (mkWorld (utcnow leap_night) [("PORT", ustr "  8080 ")])
  = main unicode_excerpt new_year.
Proof.
  apply (PORT_surrounding_whitespace_ignored
           unicode_excerpt new_year _ (ustr "8080") (ustr "  ") (ustr " "));
    reflexivity.
Defined.

(** *** A value without a literal *)

Lemma separator_not_int_char (c : N) : separator c = true -> int_char c = false.
Proof.
  unfold separator. intros H. apply andb_prop in H. destruct H as [H1 H2].
  apply N.leb_le in H1, H2.
  unfold int_char, is_digit, digit_value, Py_ISSPACE.
  repeat match goal with
         | |- context [N.leb ?a ?b] => destruct (N.leb_spec a b)
         | |- context [N.eqb ?a ?b] => destruct (N.eqb_spec a b)
         end; cbn; try reflexivity; lia.
Qed.

(** A literal of ASCII whitespace and separators only does not parse. *)
Lemma long_from_string_blank (l : pystr) :
  (forall c, In c l -> Py_ISSPACE c = true \/ separator c = true) ->
  long_from_string l = None.
Proof.
  intros H. destruct (existsb separator l) eqn:E.
  - apply existsb_exists in E. destruct E as (c & Hin & Hs).
    apply (long_from_string_rejects l c Hin), separator_not_int_char, Hs.
  - assert (Ha : all_space l = true).
    { apply forallb_forall. intros c Hc.
      destruct (H c Hc) as [Hsp | Hs]; [exact Hsp | ].
      assert (existsb separator l = true)
        by (apply existsb_exists; exists c; auto).
      congruence. }
    unfold long_from_string, strip_space.
    rewrite (skip_space_all l Ha). reflexivity.
Qed.

Lemma blank_low (db : unicode_db) (c : N) :
  blank db c = true -> N.ltb c 128 = true ->
  Py_ISSPACE c = true \/ separator c = true.
Proof.
  unfold blank. intros H Hl. apply N.ltb_lt in Hl.
  apply orb_prop in H. destruct H as [H | H].
  - apply orb_prop in H. tauto.
  - apply andb_prop in H. destruct H as [H _]. apply N.leb_le in H. lia.
Qed.

Lemma transform_blank (db : unicode_db) (u : pystr) :
  forallb (blank db) u = true ->
  forall c, In c (transform db u) -> Py_ISSPACE c = true \/ separator c = true.
Proof.
  induction u as [| ch u IH]; intros H c Hc; [contradiction | ].
  cbn [forallb] in H. apply andb_prop in H. destruct H as [Hb H].
  cbn [transform] in Hc.
  destruct (N.ltb_spec ch 127) as [Hl | Hge].
  - destruct Hc as [<- | Hc]; [ | apply (IH H c Hc)].
    apply (blank_low db ch Hb). apply N.ltb_lt. lia.
  - assert (Hs : isspace db ch = true).
    { unfold blank in Hb. apply orb_prop in Hb. destruct Hb as [Hb | Hb].
      - apply orb_prop in Hb. destruct Hb as [Hb | Hb].
        + apply space_low, N.ltb_lt in Hb. lia.
        + unfold separator in Hb. apply andb_prop in Hb.
          destruct Hb as [_ Hb]. apply N.leb_le in Hb. lia.
      - apply andb_prop in Hb. tauto. }
    rewrite Hs in Hc.
    destruct Hc as [<- | Hc]; [left; reflexivity | apply (IH H c Hc)].
Qed.

Lemma int_of_str_blank (db : unicode_db) (s : pystr) :
  forallb (blank db) s = true -> int_of_str db s = None.
Proof.
  intros H. unfold int_of_str, to_ascii. apply long_from_string_blank.
  destruct (is_ascii s) eqn:Ea.
  - intros c Hc. rewrite forallb_forall in H.
    unfold is_ascii in Ea. rewrite forallb_forall in Ea.
    apply (blank_low db c (H c Hc) (Ea c Hc)).
  - apply transform_blank, H.
Qed.

(** X16: a [PORT] that is set but empty, or holds whitespace only (ASCII
    whitespace, the separators 28 to 31, Unicode spaces), does not fall
    back to the default 8000: the block ends in [ValueError] and the
    server is not started. *)
Theorem blank_PORT_raises_ValueError
        (db : unicode_db) (w : world) (s : pystr) :
  assoc "PORT" (environ w) = Some s ->
  forallb (blank db) s = true ->
  main db w = Raise ValueError
  /\ main db w <> main db (mkWorld (utcnow w) []).
Proof.
  intros He Hs. rewrite (main_set db w s He), (int_of_str_blank db s Hs).
  split; [reflexivity | discriminate].
Qed.

Lemma blank_PORT_raises_ValueError_witness :
  main unicode_excerpt (mkWorld (utcnow leap_night) [("PORT", [])])
  = Raise ValueError
  /\ main unicode_excerpt (mkWorld (utcnow leap_night) [("PORT", [])])
     <> main unicode_excerpt (mkWorld (utcnow leap_night) []).
Proof.
  apply (blank_PORT_raises_ValueError unicode_excerpt
           (mkWorld (utcnow leap_night) [("PORT", [])]) []);
    reflexivity.
Defined.

(** ** [int] at work *)

Example int_of_str_ascii_samples :
  map (fun s => int_of_str unicode_excerpt (ustr s))
      [" 8000"; "+80"; "-80"; "8_0"; "007"; "8__0"; "_8"; "8_"; "8.0"; "";
       "0x50"; "+ 8"; "8 0"]
  = [Some 8000; Some 80; Some (-80); Some 80; Some 7; None; None; None; None;
     None; None; None; None].
Proof. reflexivity. Qed.

(** A separator is no whitespace for [int], before or after the digits
    or next to a Unicode digit. *)
Example int_of_str_separator :
  map (int_of_str unicode_excerpt)
      [[28; 56; 48; 56; 48]; [56; 48; 56; 48; 28]; [28; 1635]; [31]]%N
  = [None; None; None; None].
Proof. reflexivity. Qed.

(** Unicode digits and spaces are accepted. *)
Example int_of_str_unicode :
  map (int_of_str unicode_excerpt)
      [[1640; 1632; 1640; 1632]; [160; 56; 48; 56; 48]; [65304; 65296];
       [32; 1635; 12288]; [133; 32; 56]; [43; 160; 56]; [56; 233; 32];
       [178]; [127]; [56; 0]]%N
  = [Some 8080; Some 8080; Some 80; Some 3; Some 8; None; None; None; None;
     None].
Proof. reflexivity. Qed.

(** The limit is on the number of digits: underscores, sign and
    whitespace do not count. *)
Example int_of_str_digit_limit :
  int_of_str unicode_excerpt (repeat 48%N 4300) = Some 0
  /\ int_of_str unicode_excerpt (repeat 48%N 4301) = None
  /\ int_of_str unicode_excerpt (45%N :: repeat 48%N 4301) = None
  /\ int_of_str unicode_excerpt
       (repeat 32%N 5000 ++ 45%N :: 48%N :: 95%N :: repeat 48%N 4299)%list
     = Some 0.
Proof.
  split; [ | split; [ | split]]; vm_compute; reflexivity.
Qed.
